(** * LearnHub: the admin controller (backend) and the course management page

  A shallow embedding of [controllers/admin.controllers] (the three
  schemas and the seven request handlers) and of the pure helper of the
  admin course page of the frontend.

  Each asynchronous handler is a function from the request and the
  database to a response and the database after the call.  The handlers
  that wrap their body in [try { ... } catch] always answer; the one that
  does not ([handleAdminRegister]) may end in a rejected promise, which is
  kept apart from a response.  Calls to [console.log] are left out. *)

From Stdlib Require Import String Ascii List Bool Arith Lia.
Import ListNotations.
Local Open Scope string_scope.
Local Open Scope list_scope.

(** ** JavaScript values, truthiness and exceptions *)

Module Js.

(** A property of a request body.  Only the type of a value that is not a
    string matters to the schemas, so composite values carry no payload. *)
Inductive value : Type :=
| VUndefined
| VNull
| VBool (b : bool)
| VNumber (n : nat)
| VString (s : string)
| VArray
| VObject.

(** An object as its table of own properties. *)
Definition object : Type := list (string * value).

(** [o[k]]: the value of the first binding of [k], [undefined] if none. *)
Fixpoint prop (o : object) (k : string) : value :=
  match o with
  | [] => VUndefined
  | (k', v) :: rest => if String.eqb k' k then v else prop rest k
  end.

(** The result of a call: a returned value, or a thrown error with its
    [message]. *)
Inductive outcome (A : Type) : Type :=
| Returned (a : A)
| Threw (message : string).
Arguments Returned {A} a.
Arguments Threw {A} message.

(** What [if (x)] tests.  A string is truthy when it is not empty; [null]
    and [undefined] (here [None]) are falsy; objects and arrays, empty or
    not, are truthy. *)
Class Truthy (A : Type) : Type := truthy : A -> bool.

#[global] Instance truthy_string : Truthy string :=
  fun s => negb (String.eqb s "").
#[global] Instance truthy_bool : Truthy bool := fun b => b.
#[global] Instance truthy_option {A} `{Truthy A} : Truthy (option A) :=
  fun o => match o with Some a => truthy a | None => false end.
#[global] Instance truthy_array {A} : Truthy (list A) := fun _ => true.

(** [a || b] on strings that may be undefined. *)
Definition or_else (a : option string) (b : string) : string :=
  match a with
  | Some s => if truthy s then s else b
  | None => b
  end.

(** The message of the TypeError that Node raises on [undefined.path]. *)
Definition readPathOfUndefined : string :=
  "Cannot read properties of undefined (reading 'path')".

End Js.
Import Js.

(** ** The zod schemas *)

Module Zod.

Inductive issueCode : Type :=
| invalid_type     (* absent, or not of the expected type *)
| invalid_string   (* a string that fails a format check *)
| too_small.       (* a string shorter than the minimum *)

Record issue : Type := mkIssue {
  code : issueCode;
  path : list string;
  message : option string   (* the message the schema gives, if any *)
}.

(** The checks chained on [z.string()]. *)
Inductive check : Type :=
| email (msg : string)
| min (n : nat).

(** [type courseType = z.infer<typeof courseSchema>], and the same for the
    two other schemas. *)
Record courseType : Type := mkCourse {
  title : string;
  description : string;
  price : string
}.

Record userType : Type := mkUser {
  u_email : string;
  u_password : string;
  u_firstName : string;
  u_lastName : string
}.

Record loginType : Type := mkLogin {
  l_email : string;
  l_password : string
}.

Section Schemas.

(** The e-mail pattern of zod, a regular expression of that library. *)
Variable isEmail : string -> bool.

Definition runCheck (p : list string) (s : string) (c : check) : list issue :=
  match c with
  | email msg =>
      if isEmail s then [] else [mkIssue invalid_string p (Some msg)]
  | min n =>
      if Nat.leb n (String.length s) then [] else [mkIssue too_small p None]
  end.

(** [z.string()...] on one value: a value that is not a string (an absent
    property reads as [undefined]) gives one [invalid_type] issue; a string
    runs every check and keeps all their issues. *)
Definition parseString (checks : list check) (k : string) (o : object)
  : string * list issue :=
  match prop o k with
  | VString s => (s, flat_map (runCheck [k] s) checks)
  | _ => ("", [mkIssue invalid_type [k] None])
  end.

(** [safeParse] of an object schema: [inl] is [{success: true, data}], [inr]
    is [{success: false, error}].  The fields are parsed in the order of the
    shape, the issues of all fields are collected, unknown keys are dropped,
    and a body that is not an object is one issue at the root. *)
Definition notAnObject : list issue := [mkIssue invalid_type [] None].

Definition userSchema (body : option object) : userType + list issue :=
  match body with
  | None => inr notAnObject
  | Some o =>
      let '(e, i1) := parseString [email "Invalid email address"] "email" o in
      let '(p, i2) := parseString [min 6] "password" o in
      let '(f, i3) := parseString [] "firstName" o in
      let '(l, i4) := parseString [] "lastName" o in
      match i1 ++ i2 ++ i3 ++ i4 with
      | [] => inl (mkUser e p f l)
      | err => inr err
      end
  end.

Definition loginSchema (body : option object) : loginType + list issue :=
  match body with
  | None => inr notAnObject
  | Some o =>
      let '(e, i1) := parseString [email "Invalid email address"] "email" o in
      let '(p, i2) := parseString [min 6] "password" o in
      match i1 ++ i2 with
      | [] => inl (mkLogin e p)
      | err => inr err
      end
  end.

End Schemas.

Definition courseSchema (body : option object) : courseType + list issue :=
  match body with
  | None => inr notAnObject
  | Some o =>
      let '(t, i1) := parseString (fun _ => true) [] "title" o in
      let '(d, i2) := parseString (fun _ => true) [] "description" o in
      let '(p, i3) := parseString (fun _ => true) [] "price" o in
      match i1 ++ i2 ++ i3 with
      | [] => inl (mkCourse t d p)
      | err => inr err
      end
  end.

End Zod.

(** ** The two collections

    The Mongoose models [Admin] and [Course] are declared outside the files
    at hand; a collection is the list of its documents in insertion order. *)

Module Admin.

Record doc : Type := mkDoc {
  _id : string;
  email : string;
  firstName : string;
  lastName : string;
  password : string   (* what [hashPass] returned for the password *)
}.

#[global] Instance truthy_doc : Truthy doc := fun _ => true.

(** Modelled from the spec: the model [Admin] of [models/admin.models] is
    missing.  [Admin.findOne({ email })] is the first document whose e-mail
    is exactly [e] (a case-sensitive match), [null] if there is none. *)
Definition findOne (e : string) (docs : list doc) : option doc :=
  find (fun a => String.eqb (email a) e) docs.

(** Modelled from the spec: the model [Admin] is missing.  [Admin.create]
    persists one more document under the identifier [oid] and returns it. *)
Definition create (oid e f l pw : string) (docs : list doc)
  : doc * list doc :=
  let user := mkDoc oid e f l pw in (user, docs ++ [user]).

End Admin.

Module Course.

Record doc : Type := mkDoc {
  _id : string;
  title : string;
  description : string;
  price : string;
  imageURL : string;
  ownerName : string;
  createdBy : string   (* the [id] of the admin that created it *)
}.

#[global] Instance truthy_doc : Truthy doc := fun _ => true.

(** The object [courseInputData] of the update: a field is set or absent. *)
Record update : Type := mkUpdate {
  u_title : option string;
  u_description : option string;
  u_price : option string
}.

(** Modelled from the spec: the model [Course] of [models/course.models] is
    missing.  [Course.findOne({ title, createdBy })] is the first course
    with that title and that owner, [null] if there is none. *)
Definition findOne (t owner : string) (docs : list doc) : option doc :=
  find (fun c => String.eqb (title c) t && String.eqb (createdBy c) owner)
       docs.

(** Modelled from the spec: the model [Course] is missing.
    [Course.find({ createdBy })] is the array of the courses of that owner,
    in the order of the collection; it is an array also when it is empty. *)
Definition find (owner : string) (docs : list doc) : list doc :=
  filter (fun c => String.eqb (createdBy c) owner) docs.

(** Modelled from the spec: the model [Course] is missing.  [Course.create]
    persists one more document under the identifier [oid] and returns it. *)
Definition create (oid t d p img name owner : string) (docs : list doc)
  : doc * list doc :=
  let course := mkDoc oid t d p img name owner in (course, docs ++ [course]).

(** The fields that [u] sets replace those of [c]; the others stay. *)
Definition apply (u : update) (c : doc) : doc :=
  mkDoc (_id c)
        (match u_title u with Some t => t | None => title c end)
        (match u_description u with Some d => d | None => description c end)
        (match u_price u with Some p => p | None => price c end)
        (imageURL c) (ownerName c) (createdBy c).

(** Modelled from the spec: the model [Course] is missing.
    [Course.findByIdAndUpdate(id, u, { new: true })] updates the first
    course with that identifier and returns it as it is after the update,
    or returns [null] and changes nothing when no course has it. *)
Fixpoint findByIdAndUpdate (id : string) (u : update) (docs : list doc)
  : option doc * list doc :=
  match docs with
  | [] => (None, [])
  | c :: rest =>
      if String.eqb (_id c) id then (Some (apply u c), apply u c :: rest)
      else let '(r, rest') := findByIdAndUpdate id u rest in (r, c :: rest')
  end.

(** Modelled from the spec: the model [Course] is missing.
    [Course.findByIdAndDelete(id)] removes the first course with that
    identifier and returns it, or returns [null] and changes nothing. *)
Fixpoint findByIdAndDelete (id : string) (docs : list doc)
  : option doc * list doc :=
  match docs with
  | [] => (None, [])
  | c :: rest =>
      if String.eqb (_id c) id then (Some c, rest)
      else let '(r, rest') := findByIdAndDelete id rest in (r, c :: rest')
  end.

(** The course with identifier [id], for stating what the handlers do. *)
Definition findById (id : string) (docs : list doc) : option doc :=
  List.find (fun c => String.eqb (_id c) id) docs.

End Course.

(** The key the duplicate check of a creation looks at. *)
Definition titleAndOwner (c : Course.doc) : string * string :=
  (Course.title c, Course.createdBy c).

(** A course with a title and a description that are not empty. *)
Definition named (c : Course.doc) : bool :=
  truthy (Course.title c) && truthy (Course.description c).

(** The database: the two collections. *)
Record Db : Type := mkDb {
  admins : list Admin.doc;
  courses : list Course.doc
}.

(** ** Requests and responses *)

Module Req.

(** [req.admin], set by the authentication middleware. *)
Record Identity : Type := mkIdentity {
  id : string;
  firstName : string;
  lastName : string
}.

(** [req.file], set by the upload middleware when the form has a file. *)
Record File : Type := mkFile {
  path : option string
}.

Record Request : Type := mkRequest {
  body : option object;      (* [req.body], [undefined] when not parsed *)
  file : option File;        (* [req.file] *)
  params_id : option string; (* [req.params.id] *)
  admin : option Identity    (* [req.admin] *)
}.

End Req.

Module Res.

Inductive cookieOp : Type :=
| SetCookie (name value : string) (httpOnly : bool)
| ClearCookie (name : string).

(** The bodies the handlers send. *)
Inductive json : Type :=
| Error (error : string)                          (* { error } *)
| ErrorZod (error : list Zod.issue)               (* { error: ZodError } *)
| Message (message : string)                      (* { message } *)
| MessageUser (message : string) (user : Admin.doc)    (* { message, user } *)
| MessageAdmin (message : string) (data : Admin.doc)   (* { message, data } *)
| MessageCourse (message : string) (data : Course.doc)
| MessageCourses (message : string) (data : list Course.doc).

Record Response : Type := mkResponse {
  status : nat;
  cookies : list cookieOp;
  body : json
}.

(** [res.status(code).json(b)]. *)
Definition send (code : nat) (b : json) : Response := mkResponse code [] b.

(** [res.json({ error: error.message })] of the [catch] blocks: no status is
    set, so the response keeps the default one, 200. *)
Definition caught (message : string) : Response :=
  mkResponse 200 [] (Error message).

(** Whether the body is an error envelope. *)
Definition isError (r : Response) : bool :=
  match body r with
  | Error _ | ErrorZod _ => true
  | _ => false
  end.

End Res.
Import Res.

(** ** What the controller imports

    The helpers of [utils/], the constant of [constant] and the pattern of
    the schema library are not part of the files at hand; the handlers are
    stated over any of them. *)
Class Env : Type := mkEnv {
  (** zod's e-mail pattern *)
  isEmail : string -> bool;
  (** [hashPass(password)]: the hash, or a falsy value *)
  hashPass : string -> outcome (option string);
  (** [verifyPass(password, hash)] *)
  verifyPass : string -> string -> outcome bool;
  (** [signToken(admin, secret)] *)
  signToken : Admin.doc -> string -> outcome string;
  (** [adminJwtSecret], [undefined] when it is not configured *)
  adminJwtSecret : option string;
  (** [uploadImage(localPath)]: the public URL, or a falsy value *)
  uploadImage : string -> outcome (option string);
  (** the identifier given to a new document of a collection, from the
      identifiers in use *)
  newObjectId : list string -> string
}.

(** ** The handlers *)

Section Controller.

Context {E : Env}.

(** [const option = { httpOnly: true }]. *)
Definition cookieOption : bool := true.

Definition handleAdminRegister (req : Req.Request) (db : Db)
  : outcome Response * Db :=
  match Zod.userSchema isEmail (Req.body req) with
  | inr error => (Returned (send 400 (ErrorZod error)), db)
  | inl userData =>
      let email := Zod.u_email userData in
      let password := Zod.u_password userData in
      let firstName := Zod.u_firstName userData in
      let lastName := Zod.u_lastName userData in
      if negb (truthy email) || negb (truthy password)
         || negb (truthy firstName) || negb (truthy lastName)
      then (Returned (send 400 (Error "Missing required fields")), db)
      else
        let userExists := Admin.findOne email (admins db) in
        if truthy userExists
        then (Returned (send 400 (Error "Admin already exists")), db)
        else
          match hashPass password with
          | Threw m => (Threw m, db)
          | Returned None =>
              (Returned (send 500 (Error "Error in pass hassing")), db)
          | Returned (Some hashedPass) =>
              if negb (truthy hashedPass)
              then (Returned (send 500 (Error "Error in pass hassing")), db)
              else
                let '(user, admins') :=
                  Admin.create (newObjectId (map Admin._id (admins db)))
                               email firstName lastName hashedPass
                               (admins db) in
                let db' := mkDb admins' (courses db) in
                if negb (truthy user)
                then (Returned (send 500 (Error "Error in creating user")),
                      db')
                else (Returned
                        (send 201
                           (MessageUser "Admin created successfully" user)),
                      db')
          end
  end.

Definition handleAdminLogin (req : Req.Request) (db : Db) : Response * Db :=
  match Zod.loginSchema isEmail (Req.body req) with
  | inr error => (send 400 (ErrorZod error), db)
  | inl userData =>
      let email := Zod.l_email userData in
      let password := Zod.l_password userData in
      if negb (truthy email) || negb (truthy password)
      then (send 400 (Error "Missing required fields"), db)
      else
        match Admin.findOne email (admins db) with
        | None => (send 400 (Error "Admin doesnot exists"), db)
        | Some userExists =>
            match verifyPass password (Admin.password userExists) with
            | Threw m => (caught m, db)
            | Returned passCheck =>
                if negb (truthy passCheck)
                then (send 404 (Error "Invalid password"), db)
                else
                  let adminSecreteKey := or_else adminJwtSecret "qazplm" in
                  match signToken userExists adminSecreteKey with
                  | Threw m => (caught m, db)
                  | Returned token =>
                      (mkResponse 200
                         [SetCookie "adminSessionId" token cookieOption]
                         (MessageAdmin "Admin logged in successfully"
                                       userExists),
                       db)
                  end
            end
        end
  end.

Definition handleAdminLogout (req : Req.Request) (db : Db) : Response * Db :=
  match Req.admin req with
  | None => (send 400 (Error "Admin not found"), db)
  | Some _ =>
      (mkResponse 200 [ClearCookie "adminSessionId"]
         (Message "Admin logged out successfully"),
       db)
  end.

Definition handleCourseCreation (req : Req.Request) (db : Db)
  : Response * Db :=
  match Req.admin req with
  | None => (send 401 (Error "User is unauthorized"), db)
  | Some admin =>
      match Zod.courseSchema (Req.body req) with
      | inr error => (send 400 (ErrorZod error), db)
      | inl courseData =>
          let title := Zod.title courseData in
          let description := Zod.description courseData in
          let price := Zod.price courseData in
          if negb (truthy title) || negb (truthy description)
          then (send 400 (Error "Missing required fields"), db)
          else
            let courseExists :=
              Course.findOne title (Req.id admin) (courses db) in
            if truthy courseExists
            then (send 400 (Error "Course already exists"), db)
            else
              match Req.file req with
              | None => (caught readPathOfUndefined, db)
              | Some f =>
                  let imageLocalUrl := Req.path f in
                  match imageLocalUrl with
                  | None => (send 400 (Error "Image is required"), db)
                  | Some localUrl =>
                      if negb (truthy localUrl)
                      then (send 400 (Error "Image is required"), db)
                      else
                        match uploadImage localUrl with
                        | Threw m => (caught m, db)
                        | Returned None =>
                            (send 500 (Error "Error in uploading image"), db)
                        | Returned (Some imageURL) =>
                            if negb (truthy imageURL)
                            then (send 500
                                    (Error "Error in uploading image"), db)
                            else
                              let '(course, courses') :=
                                Course.create
                                  (newObjectId
                                     (map Course._id (courses db)))
                                  title description price imageURL
                                  (Req.firstName admin ++ " "
                                     ++ Req.lastName admin)
                                  (Req.id admin) (courses db) in
                              let db' := mkDb (admins db) courses' in
                              if negb (truthy course)
                              then (send 500
                                      (Error "Error in creating course"),
                                    db')
                              else (send 201
                                      (MessageCourse
                                         "Course created successfully"
                                         course),
                                    db')
                        end
                  end
              end
      end
  end.

Definition handleAdminCourseDisplay (req : Req.Request) (db : Db)
  : Response * Db :=
  match Req.admin req with
  | None => (send 401 (Error "User is unauthorized"), db)
  | Some admin =>
      let courses := Course.find (Req.id admin) (courses db) in
      if negb (truthy courses)
      then (send 404 (Error "Courses not found"), db)
      else (send 200 (MessageCourses "Courses fetched successfully" courses),
            db)
  end.

(** [if (x) { courseInputData.x = x; }]: the field is set when the string is
    not empty. *)
Definition given (s : string) : option string :=
  if truthy s then Some s else None.

Definition handleCourseUpdate (req : Req.Request) (db : Db)
  : Response * Db :=
  match Req.admin req with
  | None => (send 401 (Error "Unauthorized"), db)
  | Some admin =>
      let courseId := Req.params_id req in
      match courseId with
      | None => (send 400 (Error "Missing required fields"), db)
      | Some id =>
          if negb (truthy id)
          then (send 400 (Error "Missing required fields"), db)
          else
            match Zod.courseSchema (Req.body req) with
            | inr error => (send 400 (ErrorZod error), db)
            | inl courseData =>
                let courseInputData :=
                  Course.mkUpdate (given (Zod.title courseData))
                                  (given (Zod.description courseData))
                                  (given (Zod.price courseData)) in
                match Course.findByIdAndUpdate id courseInputData
                                               (courses db) with
                | (None, courses') =>
                    (send 500 (Error "Error in updating course"),
                     mkDb (admins db) courses')
                | (Some updatedCourse, courses') =>
                    (send 200
                       (MessageCourse "Course updated successfully"
                                      updatedCourse),
                     mkDb (admins db) courses')
                end
            end
      end
  end.

Definition handleCourseDelete (req : Req.Request) (db : Db)
  : Response * Db :=
  match Req.admin req with
  | None => (send 401 (Error "Unauthorized"), db)
  | Some admin =>
      let courseId := Req.params_id req in
      match courseId with
      | None => (send 403 (Error "Please provide CourseId"), db)
      | Some id =>
          if negb (truthy id)
          then (send 403 (Error "Please provide CourseId"), db)
          else
            match Course.findByIdAndDelete id (courses db) with
            | (None, courses') =>
                (send 500 (Error "Error in deleting course"),
                 mkDb (admins db) courses')
            | (Some deletedCourse, courses') =>
                (send 200 (Message "Course deleted successfully"),
                 mkDb (admins db) courses')
            end
      end
  end.

(** *** The two creating handlers, await by await

    [handleCourseCreation] and [handleAdminRegister] read the collection
    (the duplicate check), then await the upload or the hashing, and only
    then write.  Another request may be served between the read and the
    write, so each is also given in two parts: what it does up to the
    write, on the database as it is at the duplicate check, and the write,
    on the database as it is by then. *)

(** [handleCourseCreation] up to line 185: the response, when one is sent
    before [Course.create], or else the admin, the parsed body and the URL
    of the image that go into [Course.create]. *)
Definition handleCourseCreation_checks (req : Req.Request) (db : Db)
  : Response + (Req.Identity * Zod.courseType * string) :=
  match Req.admin req with
  | None => inl (send 401 (Error "User is unauthorized"))
  | Some admin =>
      match Zod.courseSchema (Req.body req) with
      | inr error => inl (send 400 (ErrorZod error))
      | inl courseData =>
          let title := Zod.title courseData in
          let description := Zod.description courseData in
          if negb (truthy title) || negb (truthy description)
          then inl (send 400 (Error "Missing required fields"))
          else
            let courseExists :=
              Course.findOne title (Req.id admin) (courses db) in
            if truthy courseExists
            then inl (send 400 (Error "Course already exists"))
            else
              match Req.file req with
              | None => inl (caught readPathOfUndefined)
              | Some f =>
                  match Req.path f with
                  | None => inl (send 400 (Error "Image is required"))
                  | Some localUrl =>
                      if negb (truthy localUrl)
                      then inl (send 400 (Error "Image is required"))
                      else
                        match uploadImage localUrl with
                        | Threw m => inl (caught m)
                        | Returned None =>
                            inl (send 500 (Error "Error in uploading image"))
                        | Returned (Some imageURL) =>
                            if negb (truthy imageURL)
                            then inl (send 500
                                        (Error "Error in uploading image"))
                            else inr (admin, courseData, imageURL)
                        end
                  end
              end
      end
  end.

(** [handleCourseCreation] from line 187 on: [Course.create] and the
    response to it. *)
Definition handleCourseCreation_create
           (p : Req.Identity * Zod.courseType * string) (db : Db)
  : Response * Db :=
  let '(admin, courseData, imageURL) := p in
  let '(course, courses') :=
    Course.create (newObjectId (map Course._id (courses db)))
                  (Zod.title courseData) (Zod.description courseData)
                  (Zod.price courseData) imageURL
                  (Req.firstName admin ++ " " ++ Req.lastName admin)
                  (Req.id admin) (courses db) in
  let db' := mkDb (admins db) courses' in
  if negb (truthy course)
  then (send 500 (Error "Error in creating course"), db')
  else (send 201 (MessageCourse "Course created successfully" course), db').

(** [handleAdminRegister] up to line 63: the response or the rejection,
    when there is one before [Admin.create], or else the e-mail, the names
    and the hash that go into [Admin.create]. *)
Definition handleAdminRegister_checks (req : Req.Request) (db : Db)
  : outcome Response + (string * string * string * string) :=
  match Zod.userSchema isEmail (Req.body req) with
  | inr error => inl (Returned (send 400 (ErrorZod error)))
  | inl userData =>
      let email := Zod.u_email userData in
      let password := Zod.u_password userData in
      let firstName := Zod.u_firstName userData in
      let lastName := Zod.u_lastName userData in
      if negb (truthy email) || negb (truthy password)
         || negb (truthy firstName) || negb (truthy lastName)
      then inl (Returned (send 400 (Error "Missing required fields")))
      else
        let userExists := Admin.findOne email (admins db) in
        if truthy userExists
        then inl (Returned (send 400 (Error "Admin already exists")))
        else
          match hashPass password with
          | Threw m => inl (Threw m)
          | Returned None =>
              inl (Returned (send 500 (Error "Error in pass hassing")))
          | Returned (Some hashedPass) =>
              if negb (truthy hashedPass)
              then inl (Returned (send 500 (Error "Error in pass hassing")))
              else inr (email, firstName, lastName, hashedPass)
          end
  end.

(** [handleAdminRegister] from line 65 on: [Admin.create] and the response
    to it. *)
Definition handleAdminRegister_create
           (p : string * string * string * string) (db : Db)
  : outcome Response * Db :=
  let '(email, firstName, lastName, hashedPass) := p in
  let '(user, admins') :=
    Admin.create (newObjectId (map Admin._id (admins db)))
                 email firstName lastName hashedPass (admins db) in
  let db' := mkDb admins' (courses db) in
  if negb (truthy user)
  then (Returned (send 500 (Error "Error in creating user")), db')
  else (Returned (send 201 (MessageUser "Admin created successfully" user)),
        db').

(** The document [handleCourseCreation] hands to [Course.create], under the
    identifier it gets: the course a successful creation persists. *)
Definition createdCourse (db : Db) (adm : Req.Identity)
           (t d pr url : string) : Course.doc :=
  Course.mkDoc (newObjectId (map Course._id (courses db))) t d pr url
               (Req.firstName adm ++ " " ++ Req.lastName adm) (Req.id adm).

(** The document [handleAdminRegister] hands to [Admin.create], under the
    identifier it gets: the admin a successful registration persists. *)
Definition createdAdmin (db : Db) (e f l h : string) : Admin.doc :=
  Admin.mkDoc (newObjectId (map Admin._id (admins db))) e f l h.

End Controller.

(** The upload of a local file fails when it throws or returns a falsy
    value, which is what [if (!imageURL)] and the [catch] block react to. *)
Definition uploadFails (r : outcome (option string)) : bool :=
  match r with
  | Returned (Some url) => negb (truthy url)
  | Returned None => true
  | Threw _ => true
  end.

(** ** The course management page of the frontend

    [AdminManageCourse.tsx]: the pure part of the page, the shortened
    description of a card. *)

(** [description.slice(0, 100)]. *)
Definition showDecription (description : string) : string :=
  substring 0 100 description.

(** ** Sample environments and data, to run the handlers on *)

Fixpoint hasAt (s : string) : bool :=
  match s with
  | EmptyString => false
  | String c rest => if Ascii.eqb c "@"%char then true else hasAt rest
  end.

(** Every helper answers: the hash is the password behind a marker, the
    token is the identifier of the admin and the key, and a new identifier
    is longer than all those in use. *)
Definition sampleEnv : Env :=
  mkEnv hasAt
        (fun pw => Returned (Some ("$2b$" ++ pw)%string))
        (fun pw h => Returned (String.eqb h ("$2b$" ++ pw)))
        (fun a key => Returned (Admin._id a ++ "." ++ key)%string)
        None
        (fun p => Returned (Some ("https://img.example/" ++ p)%string))
        (fun used => ("o" ++ String.concat "" used)%string).

(** As [sampleEnv], but the upload throws. *)
Definition throwingUploadEnv : Env :=
  mkEnv hasAt
        (fun pw => Returned (Some ("$2b$" ++ pw)%string))
        (fun pw h => Returned (String.eqb h ("$2b$" ++ pw)))
        (fun a key => Returned (Admin._id a ++ "." ++ key)%string)
        None
        (fun _ => Threw "upload timed out")
        (fun used => ("o" ++ String.concat "" used)%string).

(** As [sampleEnv], but the hashing throws. *)
Definition throwingHashEnv : Env :=
  mkEnv hasAt
        (fun _ => Threw "data and salt arguments required")
        (fun pw h => Returned (String.eqb h ("$2b$" ++ pw)))
        (fun a key => Returned (Admin._id a ++ "." ++ key)%string)
        None
        (fun p => Returned (Some ("https://img.example/" ++ p)%string))
        (fun used => ("o" ++ String.concat "" used)%string).

Definition jane : Req.Identity := Req.mkIdentity "a1" "Jane" "Doe".
Definition omar : Req.Identity := Req.mkIdentity "a2" "Omar" "Haddad".

Definition intro : Course.doc :=
  Course.mkDoc "c1" "Intro" "Basics" "10" "https://img.example/1.png"
               "Jane Doe" "a1".
Definition algebra : Course.doc :=
  Course.mkDoc "c2" "Algebra" "Groups" "25" "https://img.example/2.png"
               "Omar Haddad" "a2".

Definition janeDoc : Admin.doc :=
  Admin.mkDoc "a1" "a@x.com" "Jane" "Doe" "$2b$secret1".

Definition sampleDb : Db := mkDb [janeDoc] [intro; algebra].

Definition courseBody (t d p : string) : option object :=
  Some [("title", VString t); ("description", VString d);
        ("price", VString p)].

Definition registerBody (e pw f l : string) : option object :=
  Some [("email", VString e); ("password", VString pw);
        ("firstName", VString f); ("lastName", VString l)].

Definition loginBody (e pw : string) : option object :=
  Some [("email", VString e); ("password", VString pw)].

Definition coverImg : option Req.File :=
  Some (Req.mkFile (Some "tmp/cover.png")).

Definition listReq (adm : Req.Identity) : Req.Request :=
  Req.mkRequest None None None (Some adm).

Definition createReq (adm : Req.Identity) (t d p : string)
           (f : option Req.File) : Req.Request :=
  Req.mkRequest (courseBody t d p) f None (Some adm).

Definition updateReq (adm : Req.Identity) (cid : string)
           (b : option object) : Req.Request :=
  Req.mkRequest b None (Some cid) (Some adm).

Definition deleteReq (adm : Req.Identity) (cid : string) : Req.Request :=
  Req.mkRequest None None (Some cid) (Some adm).

Definition registerReq (e pw f l : string) : Req.Request :=
  Req.mkRequest (registerBody e pw f l) None None None.

Definition loginReq (e pw : string) : Req.Request :=
  Req.mkRequest (loginBody e pw) None None None.

(** * Properties *)

(** ** Truthiness and the schemas *)

Lemma truthy_string_iff (s : string) : truthy s = true <-> s <> "".
Proof.
  unfold truthy, truthy_string.
  destruct (String.eqb_spec s ""); simpl; split; congruence.
Qed.

(** [courseSchema] accepts a body exactly when it is an object whose
    [title], [description] and [price] are strings, whatever the strings. *)
Lemma courseSchema_accepts body t d p :
  Zod.courseSchema body = inl (Zod.mkCourse t d p) <->
  exists o, body = Some o /\ prop o "title" = VString t
            /\ prop o "description" = VString d
            /\ prop o "price" = VString p.
Proof.
  unfold Zod.courseSchema, Zod.parseString. split.
  - destruct body as [o|]; [|discriminate].
    destruct (prop o "title") eqn:Ht; simpl; try discriminate;
      destruct (prop o "description") eqn:Hd; simpl; try discriminate;
      destruct (prop o "price") eqn:Hp; simpl; try discriminate.
    intros H. injection H as -> -> ->. now exists o.
  - intros (o & -> & Ht & Hd & Hp). now rewrite Ht, Hd, Hp.
Qed.

Lemma courseSchema_rejects body :
  (forall t d p, Zod.courseSchema body <> inl (Zod.mkCourse t d p)) ->
  exists e, Zod.courseSchema body = inr e.
Proof.
  intros H. destruct (Zod.courseSchema body) as [[t d p]|e] eqn:Hs.
  - now destruct (H t d p).
  - now exists e.
Qed.

(** ** The collections *)

Lemma find_createdBy owner docs c :
  In c (Course.find owner docs) <-> In c docs /\ Course.createdBy c = owner.
Proof.
  unfold Course.find. rewrite filter_In.
  now rewrite String.eqb_eq.
Qed.

Lemma findOne_none t owner docs :
  Course.findOne t owner docs = None <->
  forall c, In c docs ->
            ~ (Course.title c = t /\ Course.createdBy c = owner).
Proof.
  unfold Course.findOne. split.
  - intros H c Hin [Ht Ho].
    apply (find_none _ _ H) in Hin. simpl in Hin.
    rewrite <- Ht, <- Ho, !String.eqb_refl in Hin. discriminate.
  - intros H.
    destruct (List.find _ docs) as [c|] eqn:Hf; [|reflexivity].
    apply find_some in Hf as [Hin Hc].
    apply andb_true_iff in Hc as [Ht Ho].
    apply String.eqb_eq in Ht, Ho. now destruct (H c Hin).
Qed.

Lemma findOne_app t owner docs more :
  Course.findOne t owner (docs ++ more)
  = match Course.findOne t owner docs with
    | Some c => Some c
    | None => Course.findOne t owner more
    end.
Proof.
  unfold Course.findOne. induction docs as [|c docs IH]; simpl.
  - reflexivity.
  - destruct (_ && _); [reflexivity | exact IH].
Qed.

Lemma findById_none id docs :
  Course.findById id docs = None <->
  forall c, In c docs -> Course._id c <> id.
Proof.
  unfold Course.findById. split.
  - intros H c Hin Hc. apply (find_none _ _ H) in Hin. simpl in Hin.
    rewrite Hc, String.eqb_refl in Hin. discriminate.
  - intros H. destruct (List.find _ docs) as [c|] eqn:Hf; [|reflexivity].
    apply find_some in Hf as [Hin Hc]. apply String.eqb_eq in Hc.
    now destruct (H c Hin).
Qed.

Lemma update_absent id u docs :
  Course.findById id docs = None ->
  Course.findByIdAndUpdate id u docs = (None, docs).
Proof.
  unfold Course.findById.
  induction docs as [|c docs IH]; simpl; [reflexivity|].
  destruct (String.eqb (Course._id c) id); [discriminate|].
  intros H. now rewrite (IH H).
Qed.

Lemma delete_absent id docs :
  Course.findById id docs = None ->
  Course.findByIdAndDelete id docs = (None, docs).
Proof.
  unfold Course.findById.
  induction docs as [|c docs IH]; simpl; [reflexivity|].
  destruct (String.eqb (Course._id c) id); [discriminate|].
  intros H. now rewrite (IH H).
Qed.

(** What an update by identifier does to a collection that has the course:
    the course found is returned updated, it is what the identifier now
    resolves to, and every other identifier resolves as before. *)
Lemma update_present id u docs c :
  Course.findById id docs = Some c ->
  exists docs',
    Course.findByIdAndUpdate id u docs = (Some (Course.apply u c), docs')
    /\ Course.findById id docs' = Some (Course.apply u c)
    /\ (forall id', id' <> id ->
                    Course.findById id' docs' = Course.findById id' docs)
    /\ length docs' = length docs.
Proof.
  unfold Course.findById.
  induction docs as [|d docs IH]; simpl; [discriminate|].
  destruct (String.eqb_spec (Course._id d) id) as [Hd|Hd].
  - intros H. injection H as ->. eexists. split; [reflexivity|].
    simpl. rewrite Hd, String.eqb_refl. repeat split.
    intros id' Hne.
    destruct (String.eqb_spec id id'); [congruence|reflexivity].
  - intros H. destruct (IH H) as (docs' & Hu & Hsame & Hother & Hlen).
    rewrite Hu. eexists. split; [reflexivity|]. simpl.
    destruct (String.eqb_spec (Course._id d) id); [contradiction|].
    repeat split; auto.
    intros id' Hne. rewrite (Hother id' Hne). reflexivity.
Qed.

(** What a deletion by identifier does to a collection that has the course:
    the first course with the identifier goes, and every other identifier
    resolves as before. *)
Lemma delete_present id docs c :
  Course.findById id docs = Some c ->
  exists docs',
    Course.findByIdAndDelete id docs = (Some c, docs')
    /\ (forall id', id' <> id ->
                    Course.findById id' docs' = Course.findById id' docs)
    /\ S (length docs') = length docs
    /\ (forall d, In d docs' -> In d docs).
Proof.
  unfold Course.findById.
  induction docs as [|d docs IH]; simpl; [discriminate|].
  destruct (String.eqb_spec (Course._id d) id) as [Hd|Hd].
  - intros H. injection H as ->. eexists. split; [reflexivity|].
    repeat split; auto.
    intros id' Hne.
    destruct (String.eqb_spec (Course._id c) id'); [congruence|reflexivity].
  - intros H. destruct (IH H) as (docs' & Hu & Hother & Hlen & Hin).
    rewrite Hu. eexists. split; [reflexivity|]. simpl.
    repeat split; auto.
    + intros id' Hne. rewrite (Hother id' Hne). reflexivity.
    + intros x [Hx|Hx]; auto.
Qed.

(** The first course with an identifier, and where it sits. *)
Lemma findById_split id docs c :
  Course.findById id docs = Some c ->
  exists pre post,
    docs = pre ++ c :: post
    /\ Course._id c = id
    /\ (forall d, In d pre -> Course._id d <> id).
Proof.
  unfold Course.findById.
  induction docs as [|x docs IH]; simpl; [discriminate|].
  destruct (String.eqb_spec (Course._id x) id) as [Hx|Hx].
  - intros H. injection H as ->. exists [], docs. simpl.
    repeat split; auto; intros d [].
  - intros H. destruct (IH H) as (pre & post & -> & Hc & Hpre).
    exists (x :: pre), post. simpl. repeat split; auto.
    intros d [<-|Hd]; auto.
Qed.

Lemma update_at id u pre c post :
  Course._id c = id -> (forall d, In d pre -> Course._id d <> id) ->
  Course.findByIdAndUpdate id u (pre ++ c :: post)
  = (Some (Course.apply u c), pre ++ Course.apply u c :: post).
Proof.
  intros Hc Hpre. induction pre as [|x pre IH]; simpl.
  - now rewrite Hc, String.eqb_refl.
  - destruct (String.eqb_spec (Course._id x) id) as [Hx|Hx].
    + destruct (Hpre x (or_introl eq_refl) Hx).
    + rewrite IH; [reflexivity|]. intros d Hd. apply Hpre. now right.
Qed.

Lemma delete_at id pre c post :
  Course._id c = id -> (forall d, In d pre -> Course._id d <> id) ->
  Course.findByIdAndDelete id (pre ++ c :: post) = (Some c, pre ++ post).
Proof.
  intros Hc Hpre. induction pre as [|x pre IH]; simpl.
  - now rewrite Hc, String.eqb_refl.
  - destruct (String.eqb_spec (Course._id x) id) as [Hx|Hx].
    + destruct (Hpre x (or_introl eq_refl) Hx).
    + rewrite IH; [reflexivity|]. intros d Hd. apply Hpre. now right.
Qed.

(** ** The claims about the course handlers *)

Section Claims.

Context {E : Env}.

(** C1: for every admin and every population of courses, the list handler
    answers 200 with exactly the courses whose [createdBy] is the id of the
    admin, so never with a course of another admin; the database is left
    as it was, and when the admin owns no course the answer is still the
    success response, with an empty array. *)
Theorem list_returns_exactly_own_courses
        (req : Req.Request) (db : Db) (adm : Req.Identity) :
  Req.admin req = Some adm ->
  exists cs,
    handleAdminCourseDisplay req db
    = (send 200 (MessageCourses "Courses fetched successfully" cs), db)
    /\ (forall c, In c cs <->
                  In c (courses db) /\ Course.createdBy c = Req.id adm)
    /\ ((forall c, In c (courses db) -> Course.createdBy c <> Req.id adm) ->
        cs = []).
Proof.
  intros Hadm. exists (Course.find (Req.id adm) (courses db)).
  unfold handleAdminCourseDisplay. rewrite Hadm. simpl.
  split; [reflexivity|]. split.
  - intros c. apply find_createdBy.
  - intros Hnone.
    destruct (Course.find (Req.id adm) (courses db)) as [|c cs] eqn:Hf;
      [reflexivity|].
    assert (Hin : In c (Course.find (Req.id adm) (courses db)))
      by (rewrite Hf; now left).
    apply find_createdBy in Hin as [Hin Hc]. now destruct (Hnone c Hin).
Qed.

(** C2, as amended: when the upload of the cover image fails, no course is
    persisted, the database being exactly what it was, and the response is
    an error; it is 500 "Error in uploading image" when the upload returns
    no URL, and the thrown message under the default status when the upload
    throws. *)
Theorem upload_failure_persists_nothing
        (req : Req.Request) (db : Db) (adm : Req.Identity)
        (t d pr p : string) (f : Req.File) :
  Req.admin req = Some adm ->
  Zod.courseSchema (Req.body req) = inl (Zod.mkCourse t d pr) ->
  t <> "" -> d <> "" ->
  Course.findOne t (Req.id adm) (courses db) = None ->
  Req.file req = Some f -> Req.path f = Some p -> p <> "" ->
  uploadFails (uploadImage p) = true ->
  snd (handleCourseCreation req db) = db
  /\ isError (fst (handleCourseCreation req db)) = true
  /\ ((exists r, uploadImage p = Returned r) ->
      fst (handleCourseCreation req db)
      = send 500 (Error "Error in uploading image"))
  /\ (forall m, uploadImage p = Threw m ->
                fst (handleCourseCreation req db) = caught m).
Proof.
  intros Hadm Hbody Ht Hd Hnew Hfile Hpath Hp Hfail.
  apply truthy_string_iff in Ht, Hd, Hp.
  unfold handleCourseCreation.
  rewrite Hadm, Hbody. simpl. rewrite Ht, Hd, Hnew, Hfile, Hpath, Hp. simpl.
  destruct (uploadImage p) as [[url|]|m]; simpl in *.
  - rewrite Hfail. simpl. repeat split; auto. intros m; discriminate.
  - repeat split; auto. intros m; discriminate.
  - repeat split; auto.
    + intros [r Hr]; discriminate.
    + intros m' Hm. now injection Hm as ->.
Qed.

(** C3: update and delete find their course by its identifier alone.  For
    every authenticated admin and every identifier of an existing course,
    whoever created it, both succeed and take effect on that course: the
    deletion answers 200 and removes the first course with the identifier
    from the collection, whatever the body; the update of a body that
    passes the schema answers 200 with the course as updated and puts it in
    the place of the old one.  The owner of the course is not looked at:
    neither the response nor the database after the call depends on which
    admin is acting. *)
Theorem update_delete_ignore_owner
        (req : Req.Request) (db : Db) (adm : Req.Identity)
        (cid : string) (c : Course.doc) :
  Req.admin req = Some adm ->
  Req.params_id req = Some cid -> cid <> "" ->
  Course.findById cid (courses db) = Some c ->
  exists pre post,
    courses db = pre ++ c :: post
    /\ (forall d, In d pre -> Course._id d <> cid)
    /\ handleCourseDelete req db
       = (send 200 (Message "Course deleted successfully"),
          mkDb (admins db) (pre ++ post))
    /\ (forall t d pr,
           Zod.courseSchema (Req.body req) = inl (Zod.mkCourse t d pr) ->
           let c' := Course.apply
                       (Course.mkUpdate (given t) (given d) (given pr)) c in
           handleCourseUpdate req db
           = (send 200 (MessageCourse "Course updated successfully" c'),
              mkDb (admins db) (pre ++ c' :: post)))
    /\ forall other : Req.Identity,
         let req' := Req.mkRequest (Req.body req) (Req.file req)
                                   (Req.params_id req) (Some other) in
         handleCourseUpdate req' db = handleCourseUpdate req db
         /\ handleCourseDelete req' db = handleCourseDelete req db.
Proof.
  intros Hadm Hid Hcid Hc.
  apply truthy_string_iff in Hcid.
  destruct (findById_split cid _ c Hc) as (pre & post & Hsplit & Hcc & Hpre).
  exists pre, post. split; [exact Hsplit|]. split; [exact Hpre|].
  split; [|split].
  - unfold handleCourseDelete. rewrite Hadm, Hid. simpl. rewrite Hcid.
    simpl. now rewrite Hsplit, (delete_at cid pre c post Hcc Hpre).
  - intros t d pr Hbody c'.
    unfold handleCourseUpdate. rewrite Hadm, Hid. simpl.
    rewrite Hcid, Hbody. simpl.
    now rewrite Hsplit, (update_at cid _ pre c post Hcc Hpre).
  - intros other req'.
    unfold handleCourseUpdate, handleCourseDelete, req'.
    rewrite Hadm. simpl. auto.
Qed.

(** A creation that passes every guard appends the new course. *)
Lemma create_succeeds (req : Req.Request) (db : Db) (adm : Req.Identity)
      (t d pr p url : string) (f : Req.File) :
  Req.admin req = Some adm ->
  Zod.courseSchema (Req.body req) = inl (Zod.mkCourse t d pr) ->
  t <> "" -> d <> "" ->
  Course.findOne t (Req.id adm) (courses db) = None ->
  Req.file req = Some f -> Req.path f = Some p -> p <> "" ->
  uploadImage p = Returned (Some url) -> url <> "" ->
  handleCourseCreation req db
  = (send 201 (MessageCourse "Course created successfully"
                             (createdCourse db adm t d pr url)),
     mkDb (admins db) (courses db ++ [createdCourse db adm t d pr url])).
Proof.
  intros Hadm Hbody Ht Hd Hnew Hfile Hpath Hp Hup Hurl.
  apply truthy_string_iff in Ht, Hd, Hp, Hurl.
  unfold handleCourseCreation.
  rewrite Hadm, Hbody. simpl. rewrite Ht, Hd, Hnew, Hfile, Hpath, Hp. simpl.
  rewrite Hup, Hurl. reflexivity.
Qed.

(** A creation under a title the admin already uses is refused, whatever
    the rest of the request. *)
Lemma create_conflict (req : Req.Request) (db : Db) (adm : Req.Identity)
      (t d pr : string) (c : Course.doc) :
  Req.admin req = Some adm ->
  Zod.courseSchema (Req.body req) = inl (Zod.mkCourse t d pr) ->
  t <> "" -> d <> "" ->
  Course.findOne t (Req.id adm) (courses db) = Some c ->
  handleCourseCreation req db
  = (send 400 (Error "Course already exists"), db).
Proof.
  intros Hadm Hbody Ht Hd Hdup.
  apply truthy_string_iff in Ht, Hd.
  unfold handleCourseCreation.
  rewrite Hadm, Hbody. simpl. now rewrite Ht, Hd, Hdup.
Qed.

Lemma findOne_created db adm t d pr url :
  Course.findOne t (Req.id adm) (courses db) = None ->
  Course.findOne t (Req.id adm)
                 (courses db ++ [createdCourse db adm t d pr url])
  = Some (createdCourse db adm t d pr url).
Proof.
  intros Hnew. rewrite findOne_app, Hnew.
  unfold Course.findOne. simpl. now rewrite !String.eqb_refl.
Qed.

Lemma findOne_other_owner db adm t d pr url owner :
  owner <> Req.id adm ->
  Course.findOne t owner (courses db ++ [createdCourse db adm t d pr url])
  = Course.findOne t owner (courses db).
Proof.
  intros Hne. rewrite findOne_app.
  destruct (Course.findOne t owner (courses db)); [reflexivity|].
  unfold Course.findOne. simpl.
  destruct (String.eqb_spec (Req.id adm) owner); [congruence|].
  now rewrite andb_false_r.
Qed.

(** C4: a first creation under a title succeeds, a second creation by the
    same admin under the same title is refused with 400 "Course already
    exists" and persists nothing, and a creation by another admin under the
    same title succeeds; the three calls leave exactly one course of that
    title for each of the two admins. *)
Theorem same_title_conflicts_per_admin
        (req1 req2 req3 : Req.Request) (db : Db) (a1 a2 : Req.Identity)
        (t d1 p1 d2 p2 d3 p3 l1 url1 l3 url3 : string) (f1 f3 : Req.File) :
  (* the first creation, by [a1] *)
  Req.admin req1 = Some a1 ->
  Zod.courseSchema (Req.body req1) = inl (Zod.mkCourse t d1 p1) ->
  t <> "" -> d1 <> "" ->
  Req.file req1 = Some f1 -> Req.path f1 = Some l1 -> l1 <> "" ->
  uploadImage l1 = Returned (Some url1) -> url1 <> "" ->
  Course.findOne t (Req.id a1) (courses db) = None ->
  (* the second one, by [a1] again *)
  Req.admin req2 = Some a1 ->
  Zod.courseSchema (Req.body req2) = inl (Zod.mkCourse t d2 p2) ->
  d2 <> "" ->
  (* the third one, by [a2] *)
  Req.admin req3 = Some a2 -> Req.id a2 <> Req.id a1 ->
  Zod.courseSchema (Req.body req3) = inl (Zod.mkCourse t d3 p3) ->
  d3 <> "" ->
  Req.file req3 = Some f3 -> Req.path f3 = Some l3 -> l3 <> "" ->
  uploadImage l3 = Returned (Some url3) -> url3 <> "" ->
  Course.findOne t (Req.id a2) (courses db) = None ->
  let db1 := snd (handleCourseCreation req1 db) in
  let db2 := snd (handleCourseCreation req2 db1) in
  let db3 := snd (handleCourseCreation req3 db2) in
  status (fst (handleCourseCreation req1 db)) = 201
  /\ fst (handleCourseCreation req2 db1)
     = send 400 (Error "Course already exists")
  /\ db2 = db1
  /\ status (fst (handleCourseCreation req3 db2)) = 201
  /\ exists c1 c3,
       courses db3 = courses db ++ [c1; c3]
       /\ Course.title c1 = t /\ Course.createdBy c1 = Req.id a1
       /\ Course.title c3 = t /\ Course.createdBy c3 = Req.id a2.
Proof.
  intros Ha1 Hb1 Ht Hd1 Hf1 Hl1 Hl1' Hu1 Hurl1 Hnew1
         Ha2 Hb2 Hd2 Ha3 Hne Hb3 Hd3 Hf3 Hl3 Hl3' Hu3 Hurl3 Hnew3.
  intros db1 db2 db3.
  pose proof (create_succeeds req1 db a1 t d1 p1 l1 url1 f1
                Ha1 Hb1 Ht Hd1 Hnew1 Hf1 Hl1 Hl1' Hu1 Hurl1) as H1.
  assert (Hdb1 : db1 = mkDb (admins db)
                   (courses db ++ [createdCourse db a1 t d1 p1 url1]))
    by (unfold db1; now rewrite H1).
  assert (Hdup : Course.findOne t (Req.id a1) (courses db1)
                 = Some (createdCourse db a1 t d1 p1 url1))
    by (rewrite Hdb1; simpl; now apply findOne_created).
  pose proof (create_conflict req2 db1 a1 t d2 p2 _ Ha2 Hb2 Ht Hd2 Hdup)
    as H2.
  assert (Hdb2 : db2 = db1) by (unfold db2; now rewrite H2).
  assert (Hnew3' : Course.findOne t (Req.id a2) (courses db2) = None).
  { rewrite Hdb2, Hdb1. simpl. now rewrite findOne_other_owner. }
  pose proof (create_succeeds req3 db2 a2 t d3 p3 l3 url3 f3
                Ha3 Hb3 Ht Hd3 Hnew3' Hf3 Hl3 Hl3' Hu3 Hurl3) as H3.
  rewrite H1, H2. repeat split; auto.
  - now rewrite H3.
  - exists (createdCourse db a1 t d1 p1 url1),
           (createdCourse db2 a2 t d3 p3 url3).
    unfold db3. rewrite H3. simpl. rewrite Hdb2, Hdb1. simpl.
    rewrite <- app_assoc. simpl. auto.
Qed.

(** An update that passes every guard, on a course that exists. *)
Lemma update_succeeds (req : Req.Request) (db : Db) (adm : Req.Identity)
      (cid t d pr : string) (c : Course.doc) :
  Req.admin req = Some adm ->
  Req.params_id req = Some cid -> cid <> "" ->
  Zod.courseSchema (Req.body req) = inl (Zod.mkCourse t d pr) ->
  Course.findById cid (courses db) = Some c ->
  let u := Course.mkUpdate (given t) (given d) (given pr) in
  exists docs',
    handleCourseUpdate req db
    = (send 200 (MessageCourse "Course updated successfully"
                               (Course.apply u c)),
       mkDb (admins db) docs')
    /\ Course.findById cid docs' = Some (Course.apply u c)
    /\ (forall id', id' <> cid ->
                    Course.findById id' docs'
                    = Course.findById id' (courses db))
    /\ length docs' = length (courses db).
Proof.
  intros Hadm Hid Hcid Hbody Hc u.
  apply truthy_string_iff in Hcid.
  destruct (update_present cid u _ _ Hc) as (docs' & Hu & Hrest).
  exists docs'. split; [|exact Hrest].
  unfold handleCourseUpdate.
  rewrite Hadm, Hid. simpl. rewrite Hcid, Hbody. simpl.
  fold u. now rewrite Hu.
Qed.

(** C5, as amended: an update needs the three fields [title], [description]
    and [price] in its body, as strings; on an existing course, each field
    sent as a string that is not empty becomes the new value, each field
    sent as the empty string keeps its prior value, the identifier, the
    image, the owner name and the owner are untouched, and so is every
    other course.  A body that lacks one of the three fields, or has one
    that is not a string, is refused with 400 and changes nothing. *)
Theorem update_changes_nonempty_fields_only
        (req : Req.Request) (db : Db) (adm : Req.Identity)
        (cid : string) (c : Course.doc) :
  Req.admin req = Some adm ->
  Req.params_id req = Some cid -> cid <> "" ->
  Course.findById cid (courses db) = Some c ->
  (forall t d pr,
      Zod.courseSchema (Req.body req) = inl (Zod.mkCourse t d pr) ->
      exists c' db',
        handleCourseUpdate req db
        = (send 200 (MessageCourse "Course updated successfully" c'), db')
        /\ Course.title c' = (if String.eqb t "" then Course.title c else t)
        /\ Course.description c'
           = (if String.eqb d "" then Course.description c else d)
        /\ Course.price c' = (if String.eqb pr "" then Course.price c else pr)
        /\ Course._id c' = Course._id c
        /\ Course.imageURL c' = Course.imageURL c
        /\ Course.ownerName c' = Course.ownerName c
        /\ Course.createdBy c' = Course.createdBy c
        /\ admins db' = admins db
        /\ Course.findById cid (courses db') = Some c'
        /\ (forall id', id' <> cid ->
                        Course.findById id' (courses db')
                        = Course.findById id' (courses db)))
  /\ ((forall t d pr,
          Zod.courseSchema (Req.body req) <> inl (Zod.mkCourse t d pr)) ->
      exists e, handleCourseUpdate req db = (send 400 (ErrorZod e), db)).
Proof.
  intros Hadm Hid Hcid Hc. split.
  - intros t d pr Hbody.
    destruct (update_succeeds req db adm cid t d pr c
                Hadm Hid Hcid Hbody Hc) as (docs' & Hu & Hsame & Hother & _).
    eexists. eexists. split; [exact Hu|].
    unfold given, truthy, truthy_string in *. simpl.
    destruct (String.eqb t ""), (String.eqb d ""), (String.eqb pr "");
      simpl in *; repeat split; auto.
  - intros Hbad. destruct (courseSchema_rejects _ Hbad) as [e He].
    exists e. apply truthy_string_iff in Hcid.
    unfold handleCourseUpdate.
    rewrite Hadm, Hid. simpl. now rewrite Hcid, He.
Qed.

(** C6, the failing input: a creation by an authenticated admin, with a
    valid body and a fresh title, whose request carries no file.  Reading
    [req.file.path] throws, the [catch] block answers with the message of
    the TypeError under the default status 200, and the guard that answers
    400 "Image is required" is never reached.  Nothing is persisted. *)
Theorem create_without_file_throws
        (req : Req.Request) (db : Db) (adm : Req.Identity)
        (t d pr : string) :
  Req.admin req = Some adm ->
  Zod.courseSchema (Req.body req) = inl (Zod.mkCourse t d pr) ->
  t <> "" -> d <> "" ->
  Course.findOne t (Req.id adm) (courses db) = None ->
  Req.file req = None ->
  handleCourseCreation req db
  = (mkResponse 200 [] (Error readPathOfUndefined), db)
  /\ fst (handleCourseCreation req db) <> send 400 (Error "Image is required").
Proof.
  intros Hadm Hbody Ht Hd Hnew Hfile.
  apply truthy_string_iff in Ht, Hd.
  unfold handleCourseCreation.
  rewrite Hadm, Hbody. simpl. rewrite Ht, Hd, Hnew, Hfile. simpl.
  split; [reflexivity | discriminate].
Qed.

(** C8, as amended: for an identifier that resolves to no course, neither
    update nor delete changes the database, and neither answers 404; for an
    authenticated admin the deletion answers 500 "Error in deleting course"
    and the update of a body that passes the schema answers 500 "Error in
    updating course". *)
Theorem missing_course_answers_500
        (req : Req.Request) (db : Db) (cid : string) :
  Req.params_id req = Some cid ->
  Course.findById cid (courses db) = None ->
  snd (handleCourseUpdate req db) = db
  /\ snd (handleCourseDelete req db) = db
  /\ status (fst (handleCourseUpdate req db)) <> 404
  /\ status (fst (handleCourseDelete req db)) <> 404
  /\ forall adm, Req.admin req = Some adm -> cid <> "" ->
       fst (handleCourseDelete req db)
       = send 500 (Error "Error in deleting course")
       /\ forall t d pr,
            Zod.courseSchema (Req.body req) = inl (Zod.mkCourse t d pr) ->
            fst (handleCourseUpdate req db)
            = send 500 (Error "Error in updating course").
Proof.
  intros Hid Hc. destruct db as [ads cs]. simpl in Hc.
  unfold handleCourseUpdate, handleCourseDelete. rewrite Hid. simpl.
  rewrite (delete_absent _ _ Hc).
  destruct (Req.admin req) as [adm|]; simpl;
    [destruct (truthy cid) eqn:Hcid; simpl;
     [destruct (Zod.courseSchema (Req.body req)) as [data|e] eqn:Hs; simpl;
      rewrite ?(update_absent _ _ _ Hc); simpl|]|];
    (split; [reflexivity|]; split; [reflexivity|];
     split; [discriminate|]; split; [discriminate|]);
    intros adm' Ha Hne; try discriminate;
    try (apply truthy_string_iff in Hne; congruence);
    (split; [reflexivity|]); intros t d pr Hb;
    try discriminate; reflexivity.
Qed.

(** C9, as amended: a creation is validated before anything is persisted,
    but on the shape of the body only.  A body in which [title],
    [description] or [price] is absent or is not a string is refused with
    400 and the issues of the schema; an empty [title] or [description] is
    refused with 400 "Missing required fields"; both leave the database as
    it was.  The price is not looked at beyond being a string: whatever
    string it is, numeric or not, a creation that passes the other guards
    answers 201 and persists a course with that very price. *)
Theorem create_validates_shape_only
        (req : Req.Request) (db : Db) (adm : Req.Identity) :
  Req.admin req = Some adm ->
  ((forall o, Req.body req = Some o ->
              (forall s, prop o "title" <> VString s)
              \/ (forall s, prop o "description" <> VString s)
              \/ (forall s, prop o "price" <> VString s)) ->
   exists e, handleCourseCreation req db = (send 400 (ErrorZod e), db))
  /\ (forall t d pr,
         Zod.courseSchema (Req.body req) = inl (Zod.mkCourse t d pr) ->
         t = "" \/ d = "" ->
         handleCourseCreation req db
         = (send 400 (Error "Missing required fields"), db))
  /\ (forall t d pr p url f,
         Zod.courseSchema (Req.body req) = inl (Zod.mkCourse t d pr) ->
         t <> "" -> d <> "" ->
         Course.findOne t (Req.id adm) (courses db) = None ->
         Req.file req = Some f -> Req.path f = Some p -> p <> "" ->
         uploadImage p = Returned (Some url) -> url <> "" ->
         exists c,
           handleCourseCreation req db
           = (send 201 (MessageCourse "Course created successfully" c),
              mkDb (admins db) (courses db ++ [c]))
           /\ Course.price c = pr).
Proof.
  intros Hadm. split; [|split].
  - intros Hshape.
    assert (Hbad : forall t d pr,
               Zod.courseSchema (Req.body req) <> inl (Zod.mkCourse t d pr)).
    { intros t d pr Hok.
      apply courseSchema_accepts in Hok as (o & Ho & Ht & Hd & Hp).
      destruct (Hshape o Ho) as [H|[H|H]].
      - now apply (H t).
      - now apply (H d).
      - now apply (H pr). }
    destruct (courseSchema_rejects _ Hbad) as [e He].
    exists e. unfold handleCourseCreation. now rewrite Hadm, He.
  - intros t d pr Hbody Hempty.
    unfold handleCourseCreation. rewrite Hadm, Hbody. simpl.
    destruct Hempty as [-> | ->]; [reflexivity|].
    now rewrite orb_true_r.
  - intros t d pr p url f Hbody Ht Hd Hnew Hfile Hpath Hp Hup Hurl.
    exists (createdCourse db adm t d pr url). split; [|reflexivity].
    now apply (create_succeeds req db adm t d pr p url f).
Qed.

End Claims.

(** ** The claims about registration and login *)

Lemma parseString_ok isE checks k o s :
  Zod.parseString isE checks k o = (s, []) ->
  prop o k = VString s /\ flat_map (Zod.runCheck isE [k] s) checks = [].
Proof.
  unfold Zod.parseString.
  destruct (prop o k); try discriminate.
  intros H. injection H as -> H. auto.
Qed.

Lemma email_check_ok isE msg k s :
  flat_map (Zod.runCheck isE [k] s) [Zod.email msg] = [] -> isE s = true.
Proof. simpl. destruct (isE s); [reflexivity | discriminate]. Qed.

Lemma min_check_ok isE n k s :
  flat_map (Zod.runCheck isE [k] s) [Zod.min n] = [] -> n <= String.length s.
Proof.
  simpl. destruct (Nat.leb n (String.length s)) eqn:H; [|discriminate].
  intros _. now apply Nat.leb_le.
Qed.

(** [userSchema] accepts a body exactly when it is an object whose four
    fields are strings, the e-mail matching the pattern and the password
    being six characters long or more. *)
Lemma userSchema_accepts isE body e pw f l :
  Zod.userSchema isE body = inl (Zod.mkUser e pw f l) <->
  exists o, body = Some o
            /\ prop o "email" = VString e /\ isE e = true
            /\ prop o "password" = VString pw /\ 6 <= String.length pw
            /\ prop o "firstName" = VString f
            /\ prop o "lastName" = VString l.
Proof.
  unfold Zod.userSchema. split.
  - destruct body as [o|]; [|discriminate].
    destruct (Zod.parseString isE _ "email" o) as [e' i1] eqn:P1.
    destruct (Zod.parseString isE _ "password" o) as [p' i2] eqn:P2.
    destruct (Zod.parseString isE _ "firstName" o) as [f' i3] eqn:P3.
    destruct (Zod.parseString isE _ "lastName" o) as [l' i4] eqn:P4.
    destruct i1; [|discriminate]. destruct i2; [|discriminate].
    destruct i3; [|discriminate]. destruct i4; [|discriminate].
    simpl. intros H. injection H as -> -> -> ->.
    apply parseString_ok in P1 as [H1 C1], P2 as [H2 C2],
                            P3 as [H3 _], P4 as [H4 _].
    apply email_check_ok in C1. apply min_check_ok in C2.
    exists o. repeat split; auto.
  - intros (o & -> & H1 & He & H2 & Hl & H3 & H4).
    apply Nat.leb_le in Hl. unfold Zod.parseString.
    rewrite H1, H2, H3, H4. cbn [flat_map Zod.runCheck].
    now rewrite He, Hl.
Qed.

Lemma loginSchema_accepts isE body e pw :
  Zod.loginSchema isE body = inl (Zod.mkLogin e pw) <->
  exists o, body = Some o
            /\ prop o "email" = VString e /\ isE e = true
            /\ prop o "password" = VString pw /\ 6 <= String.length pw.
Proof.
  unfold Zod.loginSchema. split.
  - destruct body as [o|]; [|discriminate].
    destruct (Zod.parseString isE _ "email" o) as [e' i1] eqn:P1.
    destruct (Zod.parseString isE _ "password" o) as [p' i2] eqn:P2.
    destruct i1; [|discriminate]. destruct i2; [|discriminate].
    simpl. intros H. injection H as -> ->.
    apply parseString_ok in P1 as [H1 C1], P2 as [H2 C2].
    apply email_check_ok in C1. apply min_check_ok in C2.
    exists o. repeat split; auto.
  - intros (o & -> & H1 & He & H2 & Hl).
    apply Nat.leb_le in Hl. unfold Zod.parseString.
    rewrite H1, H2. cbn [flat_map Zod.runCheck].
    now rewrite He, Hl.
Qed.

Lemma long_nonempty (s : string) : 6 <= String.length s -> s <> "".
Proof. intros H ->. simpl in H. lia. Qed.

Lemma admin_findOne_some e docs a :
  Admin.findOne e docs = Some a -> In a docs /\ Admin.email a = e.
Proof.
  unfold Admin.findOne. intros H. apply find_some in H as [Hin He].
  apply String.eqb_eq in He. auto.
Qed.

Lemma admin_findOne_none e docs :
  Admin.findOne e docs = None <->
  forall a, In a docs -> Admin.email a <> e.
Proof.
  unfold Admin.findOne. split.
  - intros H a Hin He. apply (find_none _ _ H) in Hin. simpl in Hin.
    rewrite He, String.eqb_refl in Hin. discriminate.
  - intros H. destruct (List.find _ docs) as [a|] eqn:Hf; [|reflexivity].
    apply find_some in Hf as [Hin He]. apply String.eqb_eq in He.
    now destruct (H a Hin).
Qed.

Lemma admin_findOne_app e docs more :
  Admin.findOne e (docs ++ more)
  = match Admin.findOne e docs with
    | Some a => Some a
    | None => Admin.findOne e more
    end.
Proof.
  unfold Admin.findOne. induction docs as [|a docs IH]; simpl.
  - reflexivity.
  - destruct (String.eqb (Admin.email a) e); [reflexivity | exact IH].
Qed.

Section AdminClaims.

Context {E : Env}.

(** A registration that passes every guard appends the admin, with the hash
    in place of the password. *)
Lemma register_succeeds (req : Req.Request) (db : Db)
      (e pw f l h : string) :
  Zod.userSchema isEmail (Req.body req) = inl (Zod.mkUser e pw f l) ->
  e <> "" -> f <> "" -> l <> "" ->
  Admin.findOne e (admins db) = None ->
  hashPass pw = Returned (Some h) -> h <> "" ->
  handleAdminRegister req db
  = (Returned (send 201 (MessageUser "Admin created successfully"
                                     (createdAdmin db e f l h))),
     mkDb (admins db ++ [createdAdmin db e f l h]) (courses db)).
Proof.
  intros Hbody He Hf Hl Hnew Hhash Hh.
  assert (Hpw : pw <> "").
  { apply userSchema_accepts in Hbody as (o & _ & _ & _ & _ & Hlen & _).
    now apply long_nonempty. }
  apply truthy_string_iff in He, Hf, Hl, Hh, Hpw.
  unfold handleAdminRegister. rewrite Hbody. simpl.
  rewrite He, Hpw, Hf, Hl, Hnew. simpl. rewrite Hhash, Hh. reflexivity.
Qed.

(** A login that passes every guard. *)
Lemma login_succeeds (req : Req.Request) (db : Db)
      (e pw tok : string) (a : Admin.doc) :
  Zod.loginSchema isEmail (Req.body req) = inl (Zod.mkLogin e pw) ->
  e <> "" ->
  Admin.findOne e (admins db) = Some a ->
  verifyPass pw (Admin.password a) = Returned true ->
  signToken a (or_else adminJwtSecret "qazplm") = Returned tok ->
  handleAdminLogin req db
  = (mkResponse 200 [SetCookie "adminSessionId" tok true]
                (MessageAdmin "Admin logged in successfully" a),
     db).
Proof.
  intros Hbody He Hfound Hpass Htok.
  assert (Hpw : pw <> "").
  { apply loginSchema_accepts in Hbody as (o & _ & _ & _ & _ & Hlen).
    now apply long_nonempty. }
  apply truthy_string_iff in He, Hpw.
  unfold handleAdminLogin. rewrite Hbody. simpl.
  rewrite He, Hpw, Hfound. simpl. rewrite Hpass. simpl. now rewrite Htok.
Qed.

(** C7: the first registration under an e-mail answers 201 with the new
    admin and no error; a second registration under the same e-mail answers
    400 "Admin already exists" and leaves the database as the first one
    made it, so the record of the first admin is still there, intact. *)
Theorem register_same_email_twice
        (req1 req2 : Req.Request) (db : Db)
        (e pw1 f1 l1 h pw2 f2 l2 : string) :
  Zod.userSchema isEmail (Req.body req1) = inl (Zod.mkUser e pw1 f1 l1) ->
  e <> "" -> f1 <> "" -> l1 <> "" ->
  Admin.findOne e (admins db) = None ->
  hashPass pw1 = Returned (Some h) -> h <> "" ->
  Zod.userSchema isEmail (Req.body req2) = inl (Zod.mkUser e pw2 f2 l2) ->
  f2 <> "" -> l2 <> "" ->
  let db1 := snd (handleAdminRegister req1 db) in
  exists user,
    fst (handleAdminRegister req1 db)
    = Returned (send 201 (MessageUser "Admin created successfully" user))
    /\ Admin.email user = e
    /\ Admin.findOne e (admins db1) = Some user
    /\ handleAdminRegister req2 db1
       = (Returned (send 400 (Error "Admin already exists")), db1).
Proof.
  intros Hb1 He Hf1 Hl1 Hnew Hhash Hh Hb2 Hf2 Hl2 db1.
  pose proof (register_succeeds req1 db e pw1 f1 l1 h
                Hb1 He Hf1 Hl1 Hnew Hhash Hh) as H1.
  exists (createdAdmin db e f1 l1 h).
  assert (Hfound : Admin.findOne e (admins db1)
                   = Some (createdAdmin db e f1 l1 h)).
  { unfold db1. rewrite H1. simpl. rewrite admin_findOne_app, Hnew.
    unfold Admin.findOne. simpl. now rewrite String.eqb_refl. }
  rewrite H1. repeat split; auto.
  assert (Hpw : pw2 <> "").
  { apply userSchema_accepts in Hb2 as (o & _ & _ & _ & _ & Hlen & _).
    now apply long_nonempty. }
  apply truthy_string_iff in He, Hf2, Hl2, Hpw.
  unfold handleAdminRegister at 1. rewrite Hb2. simpl.
  rewrite He, Hpw, Hf2, Hl2, Hfound. reflexivity.
Qed.

(** C10: every login that succeeds, that is every response of the login
    handler that is not an error, is the 200 response whose [data] is the
    complete record stored for the e-mail of the request: the very document
    of the collection, with the stored password hash, the one the password
    was verified against. *)
Theorem login_returns_stored_record (req : Req.Request) (db : Db) :
  isError (fst (handleAdminLogin req db)) = false ->
  exists e pw a tok,
    Zod.loginSchema isEmail (Req.body req) = inl (Zod.mkLogin e pw)
    /\ Admin.findOne e (admins db) = Some a
    /\ In a (admins db)
    /\ verifyPass pw (Admin.password a) = Returned true
    /\ fst (handleAdminLogin req db)
       = mkResponse 200 [SetCookie "adminSessionId" tok true]
                    (MessageAdmin "Admin logged in successfully" a).
Proof.
  unfold handleAdminLogin.
  destruct (Zod.loginSchema isEmail (Req.body req)) as [[e pw]|err] eqn:Hb;
    simpl; [|discriminate].
  destruct (negb (truthy e) || negb (truthy pw)); simpl; [discriminate|].
  destruct (Admin.findOne e (admins db)) as [a|] eqn:Hf;
    simpl; [|discriminate].
  destruct (verifyPass pw (Admin.password a)) as [[|]|m] eqn:Hv;
    simpl; try discriminate.
  destruct (signToken a (or_else adminJwtSecret "qazplm")) as [tok|m] eqn:Hs;
    simpl; [|discriminate].
  intros _. exists e, pw, a, tok. repeat split; auto.
  now apply admin_findOne_some in Hf.
Qed.

End AdminClaims.

(** ** The claims on concrete requests *)

Lemma list_returns_exactly_own_courses_witness :
  exists cs,
    handleAdminCourseDisplay (listReq jane) sampleDb
    = (send 200 (MessageCourses "Courses fetched successfully" cs), sampleDb)
    /\ (forall c, In c cs <->
                  In c (courses sampleDb) /\ Course.createdBy c = Req.id jane)
    /\ ((forall c, In c (courses sampleDb) ->
                   Course.createdBy c <> Req.id jane) -> cs = []).
Proof.
  apply (list_returns_exactly_own_courses (listReq jane) sampleDb jane).
  reflexivity.
Defined.

(** C2 as stated fails when the upload throws: the response then has the
    default status 200 and carries the thrown message, not the 500 of an
    upload failure. *)
Lemma upload_throw_is_not_500 :
  let req := createReq jane "Physics" "Waves" "30" coverImg in
  uploadFails (@uploadImage throwingUploadEnv "tmp/cover.png") = true
  /\ fst (@handleCourseCreation throwingUploadEnv req sampleDb)
     = mkResponse 200 [] (Error "upload timed out")
  /\ status (fst (@handleCourseCreation throwingUploadEnv req sampleDb))
     <> 500.
Proof. repeat split. discriminate. Qed.

Lemma upload_failure_persists_nothing_witness :
  let req := createReq jane "Physics" "Waves" "30" coverImg in
  snd (@handleCourseCreation throwingUploadEnv req sampleDb) = sampleDb
  /\ isError (fst (@handleCourseCreation throwingUploadEnv req sampleDb))
     = true
  /\ ((exists r, @uploadImage throwingUploadEnv "tmp/cover.png" = Returned r)
      -> fst (@handleCourseCreation throwingUploadEnv req sampleDb)
         = send 500 (Error "Error in uploading image"))
  /\ (forall m, @uploadImage throwingUploadEnv "tmp/cover.png" = Threw m ->
                fst (@handleCourseCreation throwingUploadEnv req sampleDb)
                = caught m).
Proof.
  apply (@upload_failure_persists_nothing throwingUploadEnv
           (createReq jane "Physics" "Waves" "30" coverImg) sampleDb jane
           "Physics" "Waves" "30" "tmp/cover.png"
           (Req.mkFile (Some "tmp/cover.png")));
    try reflexivity; discriminate.
Defined.

Lemma update_delete_ignore_owner_witness :
  let upd := updateReq omar "c1" (courseBody "Intro II" "" "12") in
  let intro' := Course.mkDoc "c1" "Intro II" "Basics" "12"
                             "https://img.example/1.png" "Jane Doe" "a1" in
  Course.createdBy intro <> Req.id omar
  /\ (exists pre post,
        courses sampleDb = pre ++ intro :: post
        /\ handleCourseDelete (deleteReq omar "c1") sampleDb
           = (send 200 (Message "Course deleted successfully"),
              mkDb (admins sampleDb) (pre ++ post)))
  /\ (exists pre post,
        courses sampleDb = pre ++ intro :: post
        /\ handleCourseUpdate upd sampleDb
           = (send 200 (MessageCourse "Course updated successfully" intro'),
              mkDb (admins sampleDb) (pre ++ intro' :: post))).
Proof.
  intros upd intro'. split; [discriminate|]. split.
  - destruct (update_delete_ignore_owner (deleteReq omar "c1") sampleDb omar
                                         "c1" intro)
      as (pre & post & Hsplit & _ & Hdel & _);
      [reflexivity | reflexivity | discriminate | reflexivity |].
    exists pre, post. split; [exact Hsplit | exact Hdel].
  - destruct (update_delete_ignore_owner upd sampleDb omar "c1" intro)
      as (pre & post & Hsplit & _ & _ & Hupd & _);
      [reflexivity | reflexivity | discriminate | reflexivity |].
    exists pre, post. split; [exact Hsplit|].
    exact (Hupd "Intro II" "" "12" eq_refl).
Defined.

Lemma same_title_conflicts_per_admin_witness :
  let req1 := createReq jane "Physics" "Waves" "30" coverImg in
  let req2 := createReq jane "Physics" "Optics" "35" coverImg in
  let req3 := createReq omar "Physics" "Heat" "20" coverImg in
  let db1 := snd (@handleCourseCreation sampleEnv req1 sampleDb) in
  let db2 := snd (@handleCourseCreation sampleEnv req2 db1) in
  status (fst (@handleCourseCreation sampleEnv req1 sampleDb)) = 201
  /\ fst (@handleCourseCreation sampleEnv req2 db1)
     = send 400 (Error "Course already exists")
  /\ db2 = db1
  /\ status (fst (@handleCourseCreation sampleEnv req3 db2)) = 201.
Proof.
  destruct (@same_title_conflicts_per_admin sampleEnv
              (createReq jane "Physics" "Waves" "30" coverImg)
              (createReq jane "Physics" "Optics" "35" coverImg)
              (createReq omar "Physics" "Heat" "20" coverImg)
              sampleDb jane omar
              "Physics" "Waves" "30" "Optics" "35" "Heat" "20"
              "tmp/cover.png" "https://img.example/tmp/cover.png"
              "tmp/cover.png" "https://img.example/tmp/cover.png"
              (Req.mkFile (Some "tmp/cover.png"))
              (Req.mkFile (Some "tmp/cover.png")))
    as (H1 & H2 & H3 & H4 & _); try reflexivity; try discriminate.
  repeat split; assumption.
Defined.

(** C5 as stated fails twice.  An update that supplies the price alone is
    refused with 400 by the schema and changes nothing, the price included;
    and a title supplied as the empty string is not applied: the course
    keeps its title. *)
Lemma update_price_only_is_refused :
  let priceOnly := updateReq jane "c1" (Some [("price", VString "49.99")]) in
  let emptyTitle := updateReq jane "c1" (courseBody "" "Basics" "49.99") in
  status (fst (handleCourseUpdate priceOnly sampleDb)) = 400
  /\ snd (handleCourseUpdate priceOnly sampleDb) = sampleDb
  /\ Course.findById "c1"
       (courses (snd (handleCourseUpdate priceOnly sampleDb)))
     = Some intro
  /\ Course.price intro = "10"
  /\ option_map Course.title
       (Course.findById "c1"
          (courses (snd (handleCourseUpdate emptyTitle sampleDb))))
     = Some "Intro".
Proof. repeat split. Qed.

Lemma update_changes_nonempty_fields_only_witness :
  let req := updateReq jane "c1" (courseBody "" "Basics" "49.99") in
  exists c' db',
    handleCourseUpdate req sampleDb
    = (send 200 (MessageCourse "Course updated successfully" c'), db')
    /\ Course.title c' = "Intro"
    /\ Course.price c' = "49.99".
Proof.
  destruct (update_changes_nonempty_fields_only
              (updateReq jane "c1" (courseBody "" "Basics" "49.99"))
              sampleDb jane "c1" intro) as [Hok _];
    try reflexivity; [discriminate|].
  destruct (Hok "" "Basics" "49.99" eq_refl)
    as (c' & db' & Hu & Ht & _ & Hp & _).
  exists c', db'. repeat split; assumption.
Defined.

Lemma create_without_file_throws_witness :
  let req := createReq jane "Physics" "Waves" "30" None in
  @handleCourseCreation sampleEnv req sampleDb
  = (mkResponse 200 [] (Error readPathOfUndefined), sampleDb)
  /\ fst (@handleCourseCreation sampleEnv req sampleDb)
     <> send 400 (Error "Image is required").
Proof.
  apply (@create_without_file_throws sampleEnv
           (createReq jane "Physics" "Waves" "30" None) sampleDb jane
           "Physics" "Waves" "30");
    try reflexivity; discriminate.
Defined.

(** C8 as stated fails: for an identifier that no course has, update and
    delete answer 500, not the 404 of a resource that is not found. *)
Lemma missing_course_is_not_404 :
  let upd := updateReq jane "c9" (courseBody "Intro" "Basics" "10") in
  let del := deleteReq jane "c9" in
  Course.findById "c9" (courses sampleDb) = None
  /\ handleCourseUpdate upd sampleDb
     = (send 500 (Error "Error in updating course"), sampleDb)
  /\ handleCourseDelete del sampleDb
     = (send 500 (Error "Error in deleting course"), sampleDb)
  /\ status (fst (handleCourseUpdate upd sampleDb)) <> 404
  /\ status (fst (handleCourseDelete del sampleDb)) <> 404.
Proof. repeat split; discriminate. Qed.

Lemma missing_course_answers_500_witness :
  let req := updateReq jane "c9" (courseBody "Intro" "Basics" "10") in
  snd (handleCourseUpdate req sampleDb) = sampleDb
  /\ snd (handleCourseDelete req sampleDb) = sampleDb
  /\ status (fst (handleCourseUpdate req sampleDb)) <> 404
  /\ status (fst (handleCourseDelete req sampleDb)) <> 404.
Proof.
  destruct (missing_course_answers_500
              (updateReq jane "c9" (courseBody "Intro" "Basics" "10"))
              sampleDb "c9") as (H1 & H2 & H3 & H4 & _);
    try reflexivity.
  repeat split; assumption.
Defined.

(** C9 as stated fails: a price that is not numeric is accepted, the
    creation answers 201 and the course is persisted with that price. *)
Lemma nonnumeric_price_is_accepted :
  let req := createReq jane "Physics" "Waves" "free" coverImg in
  status (fst (@handleCourseCreation sampleEnv req sampleDb)) = 201
  /\ map Course.price
         (courses (snd (@handleCourseCreation sampleEnv req sampleDb)))
     = ["10"; "25"; "free"].
Proof. repeat split. Qed.

Lemma create_validates_shape_only_witness :
  let req := createReq jane "Physics" "Waves" "free" coverImg in
  exists c,
    @handleCourseCreation sampleEnv req sampleDb
    = (send 201 (MessageCourse "Course created successfully" c),
       mkDb (admins sampleDb) (courses sampleDb ++ [c]))
    /\ Course.price c = "free".
Proof.
  destruct (@create_validates_shape_only sampleEnv
              (createReq jane "Physics" "Waves" "free" coverImg)
              sampleDb jane eq_refl) as (_ & _ & Hok).
  apply (Hok "Physics" "Waves" "free" "tmp/cover.png"
             "https://img.example/tmp/cover.png"
             (Req.mkFile (Some "tmp/cover.png")));
    try reflexivity; discriminate.
Defined.

Lemma register_same_email_twice_witness :
  let req1 := registerReq "b@x.com" "secret2" "Omar" "Haddad" in
  let req2 := registerReq "b@x.com" "another9" "Olga" "Marin" in
  let db1 := snd (@handleAdminRegister sampleEnv req1 sampleDb) in
  exists user,
    fst (@handleAdminRegister sampleEnv req1 sampleDb)
    = Returned (send 201 (MessageUser "Admin created successfully" user))
    /\ Admin.email user = "b@x.com"
    /\ Admin.findOne "b@x.com" (admins db1) = Some user
    /\ @handleAdminRegister sampleEnv req2 db1
       = (Returned (send 400 (Error "Admin already exists")), db1).
Proof.
  apply (@register_same_email_twice sampleEnv
           (registerReq "b@x.com" "secret2" "Omar" "Haddad")
           (registerReq "b@x.com" "another9" "Olga" "Marin")
           sampleDb "b@x.com" "secret2" "Omar" "Haddad" "$2b$secret2"
           "another9" "Olga" "Marin");
    try reflexivity; discriminate.
Defined.

Lemma login_returns_stored_record_witness :
  exists e pw a tok,
    Zod.loginSchema (@isEmail sampleEnv)
                    (Req.body (loginReq "a@x.com" "secret1"))
    = inl (Zod.mkLogin e pw)
    /\ Admin.findOne e (admins sampleDb) = Some a
    /\ In a (admins sampleDb)
    /\ @verifyPass sampleEnv pw (Admin.password a) = Returned true
    /\ fst (@handleAdminLogin sampleEnv (loginReq "a@x.com" "secret1")
                              sampleDb)
       = mkResponse 200 [SetCookie "adminSessionId" tok true]
                    (MessageAdmin "Admin logged in successfully" a).
Proof.
  apply (@login_returns_stored_record sampleEnv
           (loginReq "a@x.com" "secret1") sampleDb).
  reflexivity.
Defined.

(** * Further properties of the handlers *)

Section Handlers.

Context {E : Env}.

(** The two ways through [handleCourseCreation]: a response other than 201
    that leaves the database alone, or every guard passed, the upload gave
    a URL, and the new course is appended. *)
Lemma create_cases (req : Req.Request) (db : Db) :
  (status (fst (handleCourseCreation req db)) <> 201
   /\ snd (handleCourseCreation req db) = db)
  \/ exists adm t d pr url,
       Req.admin req = Some adm
       /\ Zod.courseSchema (Req.body req) = inl (Zod.mkCourse t d pr)
       /\ t <> "" /\ d <> "" /\ url <> ""
       /\ Course.findOne t (Req.id adm) (courses db) = None
       /\ handleCourseCreation req db
          = (send 201 (MessageCourse "Course created successfully"
                                     (createdCourse db adm t d pr url)),
             mkDb (admins db)
                  (courses db ++ [createdCourse db adm t d pr url])).
Proof.
  unfold handleCourseCreation.
  destruct (Req.admin req) as [adm|];
    [|left; split; [discriminate | reflexivity]].
  destruct (Zod.courseSchema (Req.body req)) as [[t d pr]|e];
    [|left; split; [discriminate | reflexivity]].
  simpl.
  destruct (truthy t) eqn:Ht;
    [|left; split; [discriminate | reflexivity]].
  destruct (truthy d) eqn:Hd;
    [|left; split; [discriminate | reflexivity]].
  simpl.
  destruct (Course.findOne t (Req.id adm) (courses db)) eqn:Hnew;
    [left; split; [discriminate | reflexivity]|].
  simpl.
  destruct (Req.file req) as [f|];
    [|left; split; [discriminate | reflexivity]].
  destruct (Req.path f) as [p|];
    [|left; split; [discriminate | reflexivity]].
  destruct (truthy p); simpl;
    [|left; split; [discriminate | reflexivity]].
  destruct (uploadImage p) as [[url|]|m];
    try (left; split; [discriminate | reflexivity]).
  destruct (truthy url) eqn:Hurl; simpl;
    [|left; split; [discriminate | reflexivity]].
  right. exists adm, t, d, pr, url.
  apply truthy_string_iff in Ht, Hd, Hurl. repeat split; auto.
Qed.

(** X1: without [req.admin] each of the four course handlers answers 401
    and leaves the database as it was, whatever else the request holds. *)
Theorem course_handlers_need_admin (req : Req.Request) (db : Db) :
  Req.admin req = None ->
  handleCourseCreation req db
  = (send 401 (Error "User is unauthorized"), db)
  /\ handleAdminCourseDisplay req db
     = (send 401 (Error "User is unauthorized"), db)
  /\ handleCourseUpdate req db = (send 401 (Error "Unauthorized"), db)
  /\ handleCourseDelete req db = (send 401 (Error "Unauthorized"), db).
Proof.
  intros H.
  unfold handleCourseCreation, handleAdminCourseDisplay, handleCourseUpdate,
    handleCourseDelete.
  rewrite H. auto.
Qed.


(** What the checks of a creation have established when they hand over to
    [Course.create]. *)
Lemma creation_checks_passed (req : Req.Request) (db : Db)
      (adm : Req.Identity) (data : Zod.courseType) (url : string) :
  handleCourseCreation_checks req db = inr (adm, data, url) ->
  Req.admin req = Some adm
  /\ Zod.courseSchema (Req.body req) = inl data
  /\ Zod.title data <> "" /\ Zod.description data <> "" /\ url <> ""
  /\ Course.findOne (Zod.title data) (Req.id adm) (courses db) = None.
Proof.
  unfold handleCourseCreation_checks.
  destruct (Req.admin req) as [a|]; [|discriminate].
  destruct (Zod.courseSchema (Req.body req)) as [cd|e]; [|discriminate].
  simpl.
  destruct (truthy (Zod.title cd)) eqn:Ht; [|discriminate].
  destruct (truthy (Zod.description cd)) eqn:Hd; [|discriminate]. simpl.
  destruct (Course.findOne _ (Req.id a) (courses db)) eqn:Hnew;
    [discriminate|]. simpl.
  destruct (Req.file req) as [f|]; [|discriminate].
  destruct (Req.path f) as [p|]; [|discriminate].
  destruct (truthy p); simpl; [|discriminate].
  destruct (uploadImage p) as [[u|]|m]; try discriminate.
  destruct (truthy u) eqn:Hu; simpl; [|discriminate].
  intros H. injection H as -> -> ->.
  apply truthy_string_iff in Ht, Hd, Hu. repeat split; auto.
Qed.

(** A call served alone is its two parts on one and the same database. *)
Lemma handleCourseCreation_alone (req : Req.Request) (db : Db) :
  handleCourseCreation req db
  = match handleCourseCreation_checks req db with
    | inl r => (r, db)
    | inr p => handleCourseCreation_create p db
    end.
Proof.
  unfold handleCourseCreation, handleCourseCreation_checks,
    handleCourseCreation_create.
  destruct (Req.admin req) as [a|]; [|reflexivity].
  destruct (Zod.courseSchema (Req.body req)) as [cd|e]; [|reflexivity].
  simpl.
  destruct (negb (truthy (Zod.title cd))
            || negb (truthy (Zod.description cd))); [reflexivity|].
  destruct (Course.findOne _ (Req.id a) (courses db)); simpl;
    [reflexivity|].
  destruct (Req.file req) as [f|]; [|reflexivity].
  destruct (Req.path f) as [p|]; [|reflexivity].
  destruct (truthy p); simpl; [|reflexivity].
  destruct (uploadImage p) as [[u|]|m]; try reflexivity.
  destruct (truthy u); reflexivity.
Qed.

Lemma created_key_not_unique docs c1 c2 :
  titleAndOwner c1 = titleAndOwner c2 ->
  ~ NoDup (map titleAndOwner ((docs ++ [c1]) ++ [c2])).
Proof.
  intros Hk Hnd. rewrite !map_app in Hnd. simpl in Hnd.
  rewrite <- app_assoc in Hnd. simpl in Hnd.
  apply NoDup_remove_2 in Hnd. apply Hnd.
  apply in_or_app. right. left. now symmetry.
Qed.

(** X3: a creation keeps the pairs of title and owner distinct as long as
    no course of its title and owner was persisted between its duplicate
    check and its [Course.create].  With [seen] the database at the check
    and [now] the database at the create: if the pairs of [now] are
    distinct and every course of [now] was there at the check or has
    another title or owner, the pairs are distinct after the create.  A
    call served alone ([now] being [seen]) is such a case. *)
Theorem create_keeps_titles_unique
        (req : Req.Request) (seen now : Db)
        (adm : Req.Identity) (data : Zod.courseType) (url : string) :
  handleCourseCreation_checks req seen = inr (adm, data, url) ->
  NoDup (map titleAndOwner (courses now)) ->
  (forall c, In c (courses now) ->
             In c (courses seen)
             \/ titleAndOwner c <> (Zod.title data, Req.id adm)) ->
  NoDup (map titleAndOwner
             (courses (snd (handleCourseCreation_create (adm, data, url)
                                                        now))))
  /\ handleCourseCreation req seen
     = handleCourseCreation_create (adm, data, url) seen.
Proof.
  intros Hchecks Hnd Hsince. split.
  - apply creation_checks_passed in Hchecks
      as (_ & _ & _ & _ & _ & Hnew).
    rewrite findOne_none in Hnew.
    unfold handleCourseCreation_create. simpl.
    rewrite map_app. simpl.
    apply NoDup_app; [exact Hnd | repeat constructor; intros [] |].
    intros k Hin [Hk|[]]. subst k.
    apply in_map_iff in Hin as (c0 & Hk & Hin0).
    destruct (Hsince c0 Hin0) as [Hold|Hother].
    + apply (Hnew c0 Hold). unfold titleAndOwner in Hk. simpl in Hk.
      injection Hk as Ht Ho. auto.
    + apply Hother. exact Hk.
  - rewrite handleCourseCreation_alone. now rewrite Hchecks.
Qed.

(** X21: the race between two creations.  When two requests of one admin
    under one title both pass their checks on the same database before
    either creates, both creations answer 201 and the collection ends with
    two courses of that title and owner; served one after the other, the
    second would have been refused with 400 "Course already exists". *)
Theorem interleaved_creations_duplicate
        (req1 req2 : Req.Request) (db : Db) (a1 a2 : Req.Identity)
        (d1 d2 : Zod.courseType) (u1 u2 : string) :
  handleCourseCreation_checks req1 db = inr (a1, d1, u1) ->
  handleCourseCreation_checks req2 db = inr (a2, d2, u2) ->
  Req.id a2 = Req.id a1 -> Zod.title d2 = Zod.title d1 ->
  let db1 := snd (handleCourseCreation_create (a1, d1, u1) db) in
  let db2 := snd (handleCourseCreation_create (a2, d2, u2) db1) in
  status (fst (handleCourseCreation_create (a1, d1, u1) db)) = 201
  /\ status (fst (handleCourseCreation_create (a2, d2, u2) db1)) = 201
  /\ length (courses db2) = 2 + length (courses db)
  /\ ~ NoDup (map titleAndOwner (courses db2))
  /\ handleCourseCreation req2 db1
     = (send 400 (Error "Course already exists"), db1).
Proof.
  intros H1 H2 Hid Ht db1 db2.
  apply creation_checks_passed in H1 as (Ha1 & Hb1 & Ht1 & Hd1 & _ & Hnew1).
  apply creation_checks_passed in H2 as (Ha2 & Hb2 & Ht2 & Hd2 & _ & _).
  unfold db2, db1, handleCourseCreation_create. simpl.
  repeat split.
  - rewrite !length_app. simpl. lia.
  - apply created_key_not_unique. unfold titleAndOwner. simpl. congruence.
  - destruct d2 as [t2 dd2 p2]. simpl in *.
    apply (create_conflict req2 _ a2 t2 dd2 p2
             (Course.mkDoc (newObjectId (map Course._id (courses db)))
                (Zod.title d1) (Zod.description d1) (Zod.price d1) u1
                (Req.firstName a1 ++ " " ++ Req.lastName a1) (Req.id a1)));
      auto.
    simpl. rewrite findOne_app, Hid, Ht, Hnew1.
    unfold Course.findOne. simpl. now rewrite !String.eqb_refl.
Qed.

(** X4: the list of an admin after a creation: a successful creation puts
    the new course at the end of the list of its owner and leaves the list
    of every other admin as it was. *)
Theorem create_then_list (req view : Req.Request) (db : Db)
        (c : Course.doc) (msg : string) (viewer : Req.Identity) :
  fst (handleCourseCreation req db) = send 201 (MessageCourse msg c) ->
  Req.admin view = Some viewer ->
  let db' := snd (handleCourseCreation req db) in
  fst (handleAdminCourseDisplay view db')
  = send 200
      (MessageCourses "Courses fetched successfully"
         (Course.find (Req.id viewer) (courses db)
          ++ (if String.eqb (Course.createdBy c) (Req.id viewer)
              then [c] else []))).
Proof.
  intros H201 Hview db'.
  destruct (create_cases req db)
    as [[Hst _] | (adm & t & d & pr & url & _ & _ & _ & _ & _ & _ & Hrun)].
  - rewrite H201 in Hst. now destruct Hst.
  - unfold db'. rewrite Hrun in H201 |- *. simpl in *.
    injection H201 as _ <-.
    unfold handleAdminCourseDisplay, Course.find. rewrite Hview. simpl.
    now rewrite filter_app.
Qed.

(** X5: an update never adds, removes or reorders courses and never changes
    an identifier, an owner, an owner name or an image: for every request
    these columns of the collection are what they were, and the admins are
    untouched. *)
Theorem update_keeps_identity_columns (req : Req.Request) (db : Db) :
  let db' := snd (handleCourseUpdate req db) in
  map Course._id (courses db') = map Course._id (courses db)
  /\ map Course.createdBy (courses db') = map Course.createdBy (courses db)
  /\ map Course.ownerName (courses db') = map Course.ownerName (courses db)
  /\ map Course.imageURL (courses db') = map Course.imageURL (courses db)
  /\ admins db' = admins db.
Proof.
  assert (Hcols : forall id u docs,
             let docs' := snd (Course.findByIdAndUpdate id u docs) in
             map Course._id docs' = map Course._id docs
             /\ map Course.createdBy docs' = map Course.createdBy docs
             /\ map Course.ownerName docs' = map Course.ownerName docs
             /\ map Course.imageURL docs' = map Course.imageURL docs).
  { intros id u docs. induction docs as [|c docs IH]; simpl; [auto|].
    destruct (String.eqb (Course._id c) id); simpl; [auto|].
    destruct (Course.findByIdAndUpdate id u docs) as [r rest]. simpl in *.
    destruct IH as (-> & -> & -> & ->). auto. }
  unfold handleCourseUpdate.
  destruct (Req.admin req); simpl; auto.
  destruct (Req.params_id req) as [id|]; simpl; auto.
  destruct (truthy id); simpl; auto.
  destruct (Zod.courseSchema (Req.body req)) as [data|e]; simpl; auto.
  match goal with |- context [Course.findByIdAndUpdate ?i ?u ?l] =>
    specialize (Hcols i u l); destruct (Course.findByIdAndUpdate i u l)
      as [[r|] docs'] end; simpl in *; tauto.
Qed.

(** X6: no handler can blank a title or a description.  If every course has
    a title and a description that are not empty, so has every course after
    a creation, after an update and after a deletion, whatever the
    request. *)
Theorem titles_and_descriptions_stay_nonempty (req : Req.Request) (db : Db) :
  Forall (fun c => named c = true) (courses db) ->
  Forall (fun c => named c = true)
         (courses (snd (handleCourseCreation req db)))
  /\ Forall (fun c => named c = true)
            (courses (snd (handleCourseUpdate req db)))
  /\ Forall (fun c => named c = true)
            (courses (snd (handleCourseDelete req db))).
Proof.
  intros Hall. split; [|split].
  - destruct (create_cases req db)
      as [[_ ->] | (adm & t & d & pr & url & _ & _ & Ht & Hd & _ & _ & ->)];
      [exact Hall|].
    simpl. apply Forall_app. split; [exact Hall|].
    constructor; [|constructor].
    unfold named. simpl. apply truthy_string_iff in Ht, Hd.
    now rewrite Ht, Hd.
  - assert (Hupd : forall id t d pr docs,
               Forall (fun c => named c = true) docs ->
               Forall (fun c => named c = true)
                 (snd (Course.findByIdAndUpdate id
                         (Course.mkUpdate (given t) (given d) (given pr))
                         docs))).
    { intros id t d pr docs. induction 1 as [|c docs Hc Hdocs IH]; simpl;
        [constructor|].
      destruct (String.eqb (Course._id c) id); simpl.
      - constructor; [|exact Hdocs].
        unfold named, Course.apply, given in *. simpl.
        apply andb_true_iff in Hc as [Hct Hcd].
        destruct (truthy t) eqn:Ht, (truthy d) eqn:Hd; simpl;
          now rewrite ?Ht, ?Hd, ?Hct, ?Hcd.
      - destruct (Course.findByIdAndUpdate id _ docs) as [r rest].
        simpl in *. now constructor. }
    unfold handleCourseUpdate.
    destruct (Req.admin req); simpl; auto.
    destruct (Req.params_id req) as [id|]; simpl; auto.
    destruct (truthy id); simpl; auto.
    destruct (Zod.courseSchema (Req.body req)) as [[t d pr]|e]; simpl; auto.
    specialize (Hupd id t d pr (courses db) Hall).
    destruct (Course.findByIdAndUpdate id _ (courses db)) as [[r|] docs'];
      simpl in *; exact Hupd.
  - assert (Hdel : forall id docs,
               Forall (fun c => named c = true) docs ->
               Forall (fun c => named c = true)
                      (snd (Course.findByIdAndDelete id docs))).
    { intros id docs. induction 1 as [|c docs Hc Hdocs IH]; simpl;
        [constructor|].
      destruct (String.eqb (Course._id c) id); simpl; [exact Hdocs|].
      destruct (Course.findByIdAndDelete id docs) as [r rest].
      simpl in *. now constructor. }
    unfold handleCourseDelete.
    destruct (Req.admin req); simpl; auto.
    destruct (Req.params_id req) as [id|]; simpl; auto.
    destruct (truthy id); simpl; auto.
    specialize (Hdel id (courses db) Hall).
    destruct (Course.findByIdAndDelete id (courses db)) as [[r|] docs'];
      simpl in *; exact Hdel.
Qed.

Lemma delete_unique id docs :
  NoDup (map Course._id docs) ->
  Course.findById id (snd (Course.findByIdAndDelete id docs)) = None.
Proof.
  unfold Course.findById.
  induction docs as [|c docs IH]; simpl; [reflexivity|].
  intros Hnd. inversion Hnd as [|x xs Hnotin Hnd']; subst.
  destruct (String.eqb_spec (Course._id c) id) as [Hc|Hc]; simpl.
  - apply findById_none. intros d Hin Hd.
    apply Hnotin. rewrite Hc, <- Hd. now apply in_map.
  - destruct (Course.findByIdAndDelete id docs) as [r rest] eqn:Hdel.
    simpl in *.
    destruct (String.eqb_spec (Course._id c) id); [contradiction|].
    now apply IH.
Qed.

Lemma delete_appended id docs c :
  ~ In id (map Course._id docs) -> Course._id c = id ->
  Course.findByIdAndDelete id (docs ++ [c]) = (Some c, docs).
Proof.
  intros Hfresh Hc. induction docs as [|d docs IH]; simpl.
  - now rewrite Hc, String.eqb_refl.
  - simpl in Hfresh.
    destruct (String.eqb_spec (Course._id d) id) as [Hd|Hd]; [tauto|].
    rewrite IH; [reflexivity | tauto].
Qed.

Lemma update_identity id u docs c :
  Course.findById id docs = Some c -> Course.apply u c = c ->
  Course.findByIdAndUpdate id u docs = (Some c, docs).
Proof.
  unfold Course.findById. intros Hc Hu.
  induction docs as [|d docs IH]; simpl in *; [discriminate|].
  destruct (String.eqb (Course._id d) id).
  - injection Hc as ->. now rewrite Hu.
  - now rewrite (IH Hc).
Qed.

(** X7: the deletion of an existing course answers 200 and removes one
    course: the collection is one shorter, every other identifier resolves
    as before, the admins are untouched, and when identifiers are unique
    the deleted one resolves to nothing afterwards. *)
Theorem delete_removes_one (req : Req.Request) (db : Db)
        (adm : Req.Identity) (cid : string) (c : Course.doc) :
  Req.admin req = Some adm ->
  Req.params_id req = Some cid -> cid <> "" ->
  Course.findById cid (courses db) = Some c ->
  let db' := snd (handleCourseDelete req db) in
  fst (handleCourseDelete req db)
  = send 200 (Message "Course deleted successfully")
  /\ S (length (courses db')) = length (courses db)
  /\ admins db' = admins db
  /\ (forall id', id' <> cid ->
                  Course.findById id' (courses db')
                  = Course.findById id' (courses db))
  /\ (NoDup (map Course._id (courses db)) ->
      Course.findById cid (courses db') = None).
Proof.
  intros Hadm Hid Hcid Hc db'.
  apply truthy_string_iff in Hcid.
  pose proof (delete_unique cid (courses db)) as Huniq.
  destruct (delete_present cid _ _ Hc) as (docs' & Hdel & Hother & Hlen & _).
  unfold db', handleCourseDelete.
  rewrite Hadm, Hid. simpl. rewrite Hcid. simpl.
  rewrite Hdel in *. simpl in *. auto.
Qed.

(** X8: a creation followed by the deletion of the course it returned puts
    the database back as it was, when the identifier the course got was not
    in use; the deletion may come from any admin. *)
Theorem create_then_delete_restores (req : Req.Request) (db : Db)
        (c : Course.doc) (msg : string) (del : Req.Request)
        (who : Req.Identity) :
  fst (handleCourseCreation req db) = send 201 (MessageCourse msg c) ->
  ~ In (Course._id c) (map Course._id (courses db)) ->
  Course._id c <> "" ->
  Req.admin del = Some who -> Req.params_id del = Some (Course._id c) ->
  handleCourseDelete del (snd (handleCourseCreation req db))
  = (send 200 (Message "Course deleted successfully"), db).
Proof.
  intros H201 Hfresh Hid Hwho Hparam.
  destruct (create_cases req db)
    as [[Hst _] | (adm & t & d & pr & url & _ & _ & _ & _ & _ & _ & Hrun)].
  - rewrite H201 in Hst. now destruct Hst.
  - rewrite Hrun in H201 |- *. simpl in H201. injection H201 as _ Hc.
    rewrite Hc. apply truthy_string_iff in Hid.
    unfold handleCourseDelete. rewrite Hwho, Hparam. simpl. rewrite Hid.
    simpl. rewrite (delete_appended _ _ c Hfresh eq_refl).
    now destruct db.
Qed.

Lemma apply_twice u c :
  Course.apply u (Course.apply u c) = Course.apply u c.
Proof.
  destruct u as [[t|] [d|] [p|]], c; reflexivity.
Qed.

Lemma update_twice id u docs :
  Course.findByIdAndUpdate id u (snd (Course.findByIdAndUpdate id u docs))
  = Course.findByIdAndUpdate id u docs.
Proof.
  induction docs as [|c docs IH]; simpl; [reflexivity|].
  destruct (String.eqb (Course._id c) id) eqn:Hc; simpl.
  - rewrite Hc. now rewrite apply_twice.
  - destruct (Course.findByIdAndUpdate id u docs) as [r rest] eqn:Hu.
    simpl in *. now rewrite Hc, IH.
Qed.

(** X9: an update that repeats what is stored changes nothing.  When the
    body carries the title, the description and the price the course has
    now, the update answers 200 with that same course and leaves the
    database as it was. *)
Theorem update_with_current_values_is_identity
        (req : Req.Request) (db : Db)
        (adm : Req.Identity) (cid : string) (c : Course.doc) :
  Req.admin req = Some adm ->
  Req.params_id req = Some cid -> cid <> "" ->
  Course.findById cid (courses db) = Some c ->
  Zod.courseSchema (Req.body req)
  = inl (Zod.mkCourse (Course.title c) (Course.description c)
                      (Course.price c)) ->
  handleCourseUpdate req db
  = (send 200 (MessageCourse "Course updated successfully" c), db).
Proof.
  intros Hadm Hid Hcid Hc Hbody.
  apply truthy_string_iff in Hcid.
  unfold handleCourseUpdate. rewrite Hadm, Hid. simpl.
  rewrite Hcid, Hbody. simpl.
  rewrite (update_identity cid _ _ c Hc).
  - now destruct db.
  - destruct c as [i t d p img n o]. unfold Course.apply, given. simpl.
    unfold truthy, truthy_string.
    destruct (String.eqb t ""), (String.eqb d ""), (String.eqb p "");
      reflexivity.
Qed.

(** X20: an update is idempotent.  For every request, sending it a second
    time gives the response of the first time and leaves the database as
    the first time left it. *)
Theorem update_is_idempotent (req : Req.Request) (db : Db) :
  handleCourseUpdate req (snd (handleCourseUpdate req db))
  = handleCourseUpdate req db.
Proof.
  unfold handleCourseUpdate.
  destruct (Req.admin req) as [adm|]; simpl; [|reflexivity].
  destruct (Req.params_id req) as [id|]; simpl; [|reflexivity].
  destruct (truthy id); simpl; [|reflexivity].
  destruct (Zod.courseSchema (Req.body req)) as [data|e]; simpl;
    [|reflexivity].
  pose proof (update_twice id
                (Course.mkUpdate (given (Zod.title data))
                                 (given (Zod.description data))
                                 (given (Zod.price data)))
                (courses db)) as Htwice.
  destruct (Course.findByIdAndUpdate id _ (courses db)) as [[r|] docs'];
    simpl in *; now rewrite Htwice.
Qed.

(** X10: a request with a file whose path is absent or empty, by an
    authenticated admin, with a valid body and a fresh title, is refused
    with 400 "Image is required" before any upload, and persists nothing. *)
Theorem create_without_path_is_refused
        (req : Req.Request) (db : Db) (adm : Req.Identity)
        (t d pr : string) (f : Req.File) :
  Req.admin req = Some adm ->
  Zod.courseSchema (Req.body req) = inl (Zod.mkCourse t d pr) ->
  t <> "" -> d <> "" ->
  Course.findOne t (Req.id adm) (courses db) = None ->
  Req.file req = Some f -> truthy (Req.path f) = false ->
  handleCourseCreation req db = (send 400 (Error "Image is required"), db).
Proof.
  intros Hadm Hbody Ht Hd Hnew Hfile Hpath.
  apply truthy_string_iff in Ht, Hd.
  unfold handleCourseCreation.
  rewrite Hadm, Hbody. simpl. rewrite Ht, Hd, Hnew, Hfile. simpl.
  destruct (Req.path f) as [p|]; [|reflexivity].
  unfold truthy, truthy_option in Hpath. now rewrite Hpath.
Qed.

End Handlers.

(** * Further properties of registration, login and logout *)

Section Accounts.

Context {E : Env}.

(** X11: login, logout and the course list never write: the database after
    the call is the database before it, whatever the request. *)
Theorem readers_leave_database (req : Req.Request) (db : Db) :
  snd (handleAdminLogin req db) = db
  /\ snd (handleAdminLogout req db) = db
  /\ snd (handleAdminCourseDisplay req db) = db.
Proof.
  unfold handleAdminLogin, handleAdminLogout, handleAdminCourseDisplay.
  repeat split.
  - destruct (Zod.loginSchema isEmail (Req.body req)) as [[e pw]|err];
      simpl; [|reflexivity].
    destruct (negb (truthy e) || negb (truthy pw)); [reflexivity|].
    destruct (Admin.findOne e (admins db)) as [a|]; [|reflexivity].
    destruct (verifyPass pw (Admin.password a)) as [[|]|m]; simpl;
      try reflexivity.
    destruct (signToken a (or_else adminJwtSecret "qazplm")); reflexivity.
  - destruct (Req.admin req); reflexivity.
  - destruct (Req.admin req); reflexivity.
Qed.

(** X12: the session cookie is set by a successful login only.  A response
    of the login handler either touches no cookie, or is the success
    response, which sets the one HTTP-only cookie [adminSessionId] to the
    token signed for an admin of the collection with the configured secret,
    or with "qazplm" when none is configured. *)
Theorem login_sets_cookie_on_success_only (req : Req.Request) (db : Db) :
  cookies (fst (handleAdminLogin req db)) = []
  \/ exists a tok,
       In a (admins db)
       /\ signToken a (or_else adminJwtSecret "qazplm") = Returned tok
       /\ cookies (fst (handleAdminLogin req db))
          = [SetCookie "adminSessionId" tok true]
       /\ isError (fst (handleAdminLogin req db)) = false.
Proof.
  unfold handleAdminLogin.
  destruct (Zod.loginSchema isEmail (Req.body req)) as [[e pw]|err];
    simpl; [|now left].
  destruct (negb (truthy e) || negb (truthy pw)); [now left|].
  destruct (Admin.findOne e (admins db)) as [a|] eqn:Hf; [|now left].
  destruct (verifyPass pw (Admin.password a)) as [[|]|m]; simpl;
    try now left.
  destruct (signToken a (or_else adminJwtSecret "qazplm")) as [tok|m]
    eqn:Hs; [|now left].
  right. exists a, tok. apply admin_findOne_some in Hf as [Hin _].
  simpl. auto.
Qed.

(** X13: how a login with a well-formed body fails.  An e-mail that no
    admin has answers 400 "Admin doesnot exists"; a password that does not
    verify against the stored hash answers 404 "Invalid password"; and a
    verification that throws is answered with its message under the default
    status. *)
Theorem login_failures (req : Req.Request) (db : Db) (e pw : string) :
  Zod.loginSchema isEmail (Req.body req) = inl (Zod.mkLogin e pw) ->
  e <> "" ->
  (Admin.findOne e (admins db) = None ->
   fst (handleAdminLogin req db) = send 400 (Error "Admin doesnot exists"))
  /\ (forall a, Admin.findOne e (admins db) = Some a ->
                verifyPass pw (Admin.password a) = Returned false ->
                fst (handleAdminLogin req db)
                = send 404 (Error "Invalid password"))
  /\ (forall a m, Admin.findOne e (admins db) = Some a ->
                  verifyPass pw (Admin.password a) = Threw m ->
                  fst (handleAdminLogin req db) = caught m).
Proof.
  intros Hbody He.
  assert (Hpw : pw <> "").
  { apply loginSchema_accepts in Hbody as (o & _ & _ & _ & _ & Hlen).
    now apply long_nonempty. }
  apply truthy_string_iff in He, Hpw.
  unfold handleAdminLogin. rewrite Hbody. simpl. rewrite He, Hpw. simpl.
  repeat split.
  - now intros ->.
  - intros a -> Hv. now rewrite Hv.
  - intros a m -> Hv. now rewrite Hv.
Qed.

(** The only way through [handleAdminRegister] that touches the
    database. *)
Lemma register_inversion (req : Req.Request) (db : Db) :
  (snd (handleAdminRegister req db) = db
   /\ forall msg user,
        fst (handleAdminRegister req db)
        <> Returned (send 201 (MessageUser msg user)))
  \/ exists e pw f l h,
       Zod.userSchema isEmail (Req.body req) = inl (Zod.mkUser e pw f l)
       /\ e <> "" /\ f <> "" /\ l <> ""
       /\ Admin.findOne e (admins db) = None
       /\ hashPass pw = Returned (Some h) /\ h <> "".
Proof.
  unfold handleAdminRegister.
  destruct (Zod.userSchema isEmail (Req.body req)) as [[e pw f l]|err];
    simpl; [|left; split; [reflexivity | discriminate]].
  destruct (truthy e) eqn:He; simpl;
    [|left; split; [reflexivity | discriminate]].
  destruct (truthy pw) eqn:Hpw; simpl;
    [|left; split; [reflexivity | discriminate]].
  destruct (truthy f) eqn:Hf; simpl;
    [|left; split; [reflexivity | discriminate]].
  destruct (truthy l) eqn:Hl; simpl;
    [|left; split; [reflexivity | discriminate]].
  destruct (Admin.findOne e (admins db)) as [a|] eqn:Hnew; simpl;
    [left; split; [reflexivity | discriminate]|].
  destruct (hashPass pw) as [[h|]|m] eqn:Hh;
    try (left; split; [reflexivity | discriminate]).
  destruct (truthy h) eqn:Hh'; simpl;
    [|left; split; [reflexivity | discriminate]].
  right. exists e, pw, f, l, h.
  apply truthy_string_iff in He, Hf, Hl, Hh'. repeat split; auto.
Qed.


(** What the checks of a registration have established when they hand
    over to [Admin.create]. *)
Lemma register_checks_passed (req : Req.Request) (db : Db)
      (e f l h : string) :
  handleAdminRegister_checks req db = inr (e, f, l, h) ->
  (exists pw, Zod.userSchema isEmail (Req.body req)
              = inl (Zod.mkUser e pw f l))
  /\ e <> "" /\ f <> "" /\ l <> "" /\ h <> ""
  /\ Admin.findOne e (admins db) = None.
Proof.
  unfold handleAdminRegister_checks.
  destruct (Zod.userSchema isEmail (Req.body req)) as [[e0 pw f0 l0]|err];
    simpl; [|discriminate].
  destruct (truthy e0) eqn:He; simpl; [|discriminate].
  destruct (truthy pw) eqn:Hpw; simpl; [|discriminate].
  destruct (truthy f0) eqn:Hf; simpl; [|discriminate].
  destruct (truthy l0) eqn:Hl; simpl; [|discriminate].
  destruct (Admin.findOne e0 (admins db)) eqn:Hnew; simpl; [discriminate|].
  destruct (hashPass pw) as [[h0|]|m]; try discriminate.
  destruct (truthy h0) eqn:Hh; simpl; [|discriminate].
  intros H. injection H as -> -> -> ->.
  apply truthy_string_iff in He, Hf, Hl, Hh.
  repeat split; auto. now exists pw.
Qed.

(** A call served alone is its two parts on one and the same database. *)
Lemma handleAdminRegister_alone (req : Req.Request) (db : Db) :
  handleAdminRegister req db
  = match handleAdminRegister_checks req db with
    | inl r => (r, db)
    | inr p => handleAdminRegister_create p db
    end.
Proof.
  unfold handleAdminRegister, handleAdminRegister_checks,
    handleAdminRegister_create.
  destruct (Zod.userSchema isEmail (Req.body req)) as [[e pw f l]|err];
    simpl; [|reflexivity].
  destruct (negb (truthy e) || negb (truthy pw) || negb (truthy f)
            || negb (truthy l)); [reflexivity|].
  destruct (Admin.findOne e (admins db)); simpl; [reflexivity|].
  destruct (hashPass pw) as [[h|]|m]; try reflexivity.
  destruct (truthy h); reflexivity.
Qed.

(** X15: a registration keeps the e-mails distinct as long as no admin of
    its e-mail was persisted between its duplicate check and its
    [Admin.create].  With [seen] the database at the check and [now] the
    database at the create: if the e-mails of [now] are distinct and every
    admin of [now] was there at the check or has another e-mail, the
    e-mails are distinct after the create.  A call served alone ([now]
    being [seen]) is such a case. *)
Theorem register_keeps_emails_unique
        (req : Req.Request) (seen now : Db) (e f l h : string) :
  handleAdminRegister_checks req seen = inr (e, f, l, h) ->
  NoDup (map Admin.email (admins now)) ->
  (forall a, In a (admins now) ->
             In a (admins seen) \/ Admin.email a <> e) ->
  NoDup (map Admin.email
             (admins (snd (handleAdminRegister_create (e, f, l, h) now))))
  /\ handleAdminRegister req seen
     = handleAdminRegister_create (e, f, l, h) seen.
Proof.
  intros Hchecks Hnd Hsince. split.
  - apply register_checks_passed in Hchecks as (_ & _ & _ & _ & _ & Hnew).
    rewrite admin_findOne_none in Hnew.
    unfold handleAdminRegister_create. simpl.
    rewrite map_app. simpl.
    apply NoDup_app; [exact Hnd | repeat constructor; intros [] |].
    intros k Hin [Hk|[]]. subst k.
    apply in_map_iff in Hin as (a & Hk & Hin).
    destruct (Hsince a Hin) as [Hold|Hother].
    + now apply (Hnew a Hold).
    + now apply Hother.
  - rewrite handleAdminRegister_alone. now rewrite Hchecks.
Qed.

(** X22: the race between two registrations.  When two requests under one
    e-mail both pass their checks on the same database before either
    creates, both answer 201 and the collection ends with two admins of
    that e-mail; served one after the other, the second would have been
    refused with 400 "Admin already exists". *)
Theorem interleaved_registrations_duplicate
        (req1 req2 : Req.Request) (db : Db)
        (e f1 l1 h1 f2 l2 h2 : string) :
  handleAdminRegister_checks req1 db = inr (e, f1, l1, h1) ->
  handleAdminRegister_checks req2 db = inr (e, f2, l2, h2) ->
  let db1 := snd (handleAdminRegister_create (e, f1, l1, h1) db) in
  let db2 := snd (handleAdminRegister_create (e, f2, l2, h2) db1) in
  (exists u1, fst (handleAdminRegister_create (e, f1, l1, h1) db)
              = Returned (send 201
                            (MessageUser "Admin created successfully" u1)))
  /\ (exists u2, fst (handleAdminRegister_create (e, f2, l2, h2) db1)
                 = Returned (send 201
                               (MessageUser "Admin created successfully" u2)))
  /\ length (admins db2) = 2 + length (admins db)
  /\ ~ NoDup (map Admin.email (admins db2))
  /\ handleAdminRegister req2 db1
     = (Returned (send 400 (Error "Admin already exists")), db1).
Proof.
  intros H1 H2 db1 db2.
  apply register_checks_passed in H1 as (_ & _ & _ & _ & _ & Hnew).
  apply register_checks_passed in H2
    as ([pw2 Hb2] & He & Hf2 & Hl2 & _ & _).
  unfold db2, db1, handleAdminRegister_create. simpl.
  split; [eexists; reflexivity|]. split; [eexists; reflexivity|].
  split; [rewrite !length_app; simpl; lia|]. split.
  - intros Hnd. rewrite !map_app in Hnd. simpl in Hnd.
    rewrite <- app_assoc in Hnd. simpl in Hnd.
    apply NoDup_remove_2 in Hnd. apply Hnd.
    apply in_or_app. right. now left.
  - assert (Hpw : pw2 <> "").
    { apply userSchema_accepts in Hb2 as (o & _ & _ & _ & _ & Hlen & _).
      now apply long_nonempty. }
    apply truthy_string_iff in He, Hf2, Hl2, Hpw.
    unfold handleAdminRegister. rewrite Hb2. simpl.
    rewrite He, Hpw, Hf2, Hl2. simpl.
    rewrite admin_findOne_app, Hnew. unfold Admin.findOne. simpl.
    now rewrite String.eqb_refl.
Qed.

(** X16: registration then login.  After a registration that succeeded, a
    login under the same e-mail with a password that verifies against the
    stored hash answers 200, sets the session cookie and returns the very
    admin the registration returned. *)
Theorem register_then_login (reg log : Req.Request) (db : Db)
        (user : Admin.doc) (msg pw tok : string) :
  fst (handleAdminRegister reg db) = Returned (send 201 (MessageUser msg user))
  ->
  Zod.loginSchema isEmail (Req.body log)
  = inl (Zod.mkLogin (Admin.email user) pw) ->
  verifyPass pw (Admin.password user) = Returned true ->
  signToken user (or_else adminJwtSecret "qazplm") = Returned tok ->
  let db' := snd (handleAdminRegister reg db) in
  handleAdminLogin log db'
  = (mkResponse 200 [SetCookie "adminSessionId" tok true]
                (MessageAdmin "Admin logged in successfully" user),
     db').
Proof.
  intros H201 Hbody Hv Htok db'.
  destruct (register_inversion reg db)
    as [[_ Hno] | (e & pw0 & f & l & h & Hb & He & Hf & Hl & Hnew
                   & Hhash & Hh)].
  - now destruct (Hno msg user).
  - pose proof (register_succeeds reg db e pw0 f l h
                  Hb He Hf Hl Hnew Hhash Hh) as Hrun.
    unfold db'. rewrite Hrun in H201 |- *. simpl in *.
    injection H201 as _ <-.
    apply (login_succeeds log _ e pw tok); auto.
    simpl. rewrite admin_findOne_app, Hnew.
    unfold Admin.findOne. simpl. now rewrite String.eqb_refl.
Qed.

(** X17: when the hashing fails, nothing is persisted.  A falsy hash is
    answered with 500 "Error in pass hassing"; a hashing that throws leaves
    the handler without any response, its promise rejected with the thrown
    message, since this handler has no [catch]. *)
Theorem register_hashing_failure (req : Req.Request) (db : Db)
        (e pw f l : string) :
  Zod.userSchema isEmail (Req.body req) = inl (Zod.mkUser e pw f l) ->
  e <> "" -> f <> "" -> l <> "" ->
  Admin.findOne e (admins db) = None ->
  (hashPass pw = Returned None \/ hashPass pw = Returned (Some "") ->
   handleAdminRegister req db
   = (Returned (send 500 (Error "Error in pass hassing")), db))
  /\ (forall m, hashPass pw = Threw m ->
                handleAdminRegister req db = (Threw m, db)).
Proof.
  intros Hbody He Hf Hl Hnew.
  assert (Hpw : pw <> "").
  { apply userSchema_accepts in Hbody as (o & _ & _ & _ & _ & Hlen & _).
    now apply long_nonempty. }
  apply truthy_string_iff in He, Hf, Hl, Hpw.
  unfold handleAdminRegister. rewrite Hbody. simpl.
  rewrite He, Hpw, Hf, Hl, Hnew. simpl. split.
  - intros [-> | ->]; reflexivity.
  - intros m ->. reflexivity.
Qed.

(** X18: what the registration schema refuses.  A body whose e-mail does
    not match the pattern, whose password is shorter than six characters,
    or in which one of the four fields is not a string, is answered with
    400 and the issues of the schema; nothing is persisted and the
    password is not hashed. *)
Theorem register_rejects_bad_shape (req : Req.Request) (db : Db)
        (o : object) :
  Req.body req = Some o ->
  (forall s, prop o "email" = VString s -> isEmail s = false)
  \/ (forall s, prop o "password" = VString s -> String.length s < 6)
  \/ (forall s, prop o "firstName" <> VString s)
  \/ (forall s, prop o "lastName" <> VString s) ->
  exists err,
    handleAdminRegister req db = (Returned (send 400 (ErrorZod err)), db).
Proof.
  intros Hbody Hbad.
  destruct (Zod.userSchema isEmail (Req.body req)) as [[e pw f l]|err]
    eqn:Hs.
  - exfalso.
    apply userSchema_accepts in Hs
      as (o' & Ho & H1 & He & H2 & Hlen & H3 & H4).
    rewrite Hbody in Ho. injection Ho as <-.
    destruct Hbad as [H|[H|[H|H]]].
    + rewrite (H e H1) in He. discriminate.
    + specialize (H pw H2). lia.
    + now apply (H f).
    + now apply (H l).
  - exists err. unfold handleAdminRegister. now rewrite Hs.
Qed.

End Accounts.

(** * The course card of the page *)

Lemma substring_zero_length n s :
  String.length (substring 0 n s) = Nat.min n (String.length s).
Proof.
  revert s. induction n as [|n IH]; intros [|c s]; simpl; auto.
Qed.

Lemma substring_zero_prefix n s : prefix (substring 0 n s) s = true.
Proof.
  revert s. induction n as [|n IH]; intros [|c s]; simpl; auto.
  destruct (ascii_dec c c); [apply IH | congruence].
Qed.

Lemma substring_zero_all n s :
  String.length s <= n -> substring 0 n s = s.
Proof.
  revert s. induction n as [|n IH]; intros [|c s]; simpl; auto.
  - lia.
  - intros H. f_equal. apply IH. lia.
Qed.

(** X19: the description shown on a card is a prefix of the description of
    the course, of at most 100 characters; a description of 100 characters
    or fewer is shown whole, and shortening twice is shortening once. *)
Theorem showDecription_is_short_prefix (description : string) :
  String.length (showDecription description)
  = Nat.min 100 (String.length description)
  /\ prefix (showDecription description) description = true
  /\ (String.length description <= 100 ->
      showDecription description = description)
  /\ showDecription (showDecription description) = showDecription description.
Proof.
  unfold showDecription. repeat split.
  - apply substring_zero_length.
  - apply substring_zero_prefix.
  - apply substring_zero_all.
  - apply substring_zero_all. rewrite substring_zero_length. lia.
Qed.

(** * The further properties on concrete requests *)

Ltac distinct :=
  repeat (constructor; [simpl; intuition discriminate|]); constructor.

Lemma course_handlers_need_admin_witness :
  let req := Req.mkRequest (courseBody "Physics" "Waves" "30") coverImg
                           (Some "c1") None in
  @handleCourseCreation sampleEnv req sampleDb
  = (send 401 (Error "User is unauthorized"), sampleDb)
  /\ handleAdminCourseDisplay req sampleDb
     = (send 401 (Error "User is unauthorized"), sampleDb)
  /\ handleCourseUpdate req sampleDb
     = (send 401 (Error "Unauthorized"), sampleDb)
  /\ handleCourseDelete req sampleDb
     = (send 401 (Error "Unauthorized"), sampleDb).
Proof.
  apply (@course_handlers_need_admin sampleEnv
           (Req.mkRequest (courseBody "Physics" "Waves" "30") coverImg
                          (Some "c1") None) sampleDb).
  reflexivity.
Defined.

Lemma create_keeps_titles_unique_witness :
  let req := createReq jane "Physics" "Waves" "30" coverImg in
  let p := (jane, Zod.mkCourse "Physics" "Waves" "30",
            "https://img.example/tmp/cover.png") in
  NoDup (map titleAndOwner
             (courses (snd (@handleCourseCreation_create sampleEnv p
                                                         sampleDb))))
  /\ @handleCourseCreation sampleEnv req sampleDb
     = @handleCourseCreation_create sampleEnv p sampleDb.
Proof.
  apply (@create_keeps_titles_unique sampleEnv
           (createReq jane "Physics" "Waves" "30" coverImg)
           sampleDb sampleDb jane (Zod.mkCourse "Physics" "Waves" "30")
           "https://img.example/tmp/cover.png").
  - reflexivity.
  - simpl. distinct.
  - intros c Hc. now left.
Defined.

Lemma interleaved_creations_duplicate_witness :
  let req1 := createReq jane "Physics" "Waves" "30" coverImg in
  let req2 := createReq jane "Physics" "Optics" "35" coverImg in
  let p1 := (jane, Zod.mkCourse "Physics" "Waves" "30",
             "https://img.example/tmp/cover.png") in
  let p2 := (jane, Zod.mkCourse "Physics" "Optics" "35",
             "https://img.example/tmp/cover.png") in
  let db1 := snd (@handleCourseCreation_create sampleEnv p1 sampleDb) in
  let db2 := snd (@handleCourseCreation_create sampleEnv p2 db1) in
  status (fst (@handleCourseCreation_create sampleEnv p1 sampleDb)) = 201
  /\ status (fst (@handleCourseCreation_create sampleEnv p2 db1)) = 201
  /\ length (courses db2) = 2 + length (courses sampleDb)
  /\ ~ NoDup (map titleAndOwner (courses db2))
  /\ @handleCourseCreation sampleEnv req2 db1
     = (send 400 (Error "Course already exists"), db1).
Proof.
  apply (@interleaved_creations_duplicate sampleEnv
           (createReq jane "Physics" "Waves" "30" coverImg)
           (createReq jane "Physics" "Optics" "35" coverImg)
           sampleDb jane jane
           (Zod.mkCourse "Physics" "Waves" "30")
           (Zod.mkCourse "Physics" "Optics" "35")
           "https://img.example/tmp/cover.png"
           "https://img.example/tmp/cover.png");
    reflexivity.
Defined.

Lemma create_then_list_witness :
  let req := createReq jane "Physics" "Waves" "30" coverImg in
  let c := @createdCourse sampleEnv sampleDb jane "Physics" "Waves" "30"
                          "https://img.example/tmp/cover.png" in
  fst (handleAdminCourseDisplay
         (listReq omar) (snd (@handleCourseCreation sampleEnv req sampleDb)))
  = send 200
      (MessageCourses "Courses fetched successfully"
         (Course.find (Req.id omar) (courses sampleDb)
          ++ (if String.eqb (Course.createdBy c) (Req.id omar)
              then [c] else []))).
Proof.
  apply (@create_then_list sampleEnv
           (createReq jane "Physics" "Waves" "30" coverImg) (listReq omar)
           sampleDb
           (@createdCourse sampleEnv sampleDb jane "Physics" "Waves" "30"
                           "https://img.example/tmp/cover.png")
           "Course created successfully" omar);
    reflexivity.
Defined.

Lemma titles_and_descriptions_stay_nonempty_witness :
  let req := Req.mkRequest (courseBody "" "" "12") coverImg (Some "c1")
                           (Some jane) in
  Forall (fun c => named c = true)
         (courses (snd (@handleCourseCreation sampleEnv req sampleDb)))
  /\ Forall (fun c => named c = true)
            (courses (snd (handleCourseUpdate req sampleDb)))
  /\ Forall (fun c => named c = true)
            (courses (snd (handleCourseDelete req sampleDb))).
Proof.
  apply (@titles_and_descriptions_stay_nonempty sampleEnv
           (Req.mkRequest (courseBody "" "" "12") coverImg (Some "c1")
                          (Some jane)) sampleDb).
  simpl. repeat constructor.
Defined.

Lemma delete_removes_one_witness :
  let db' := snd (handleCourseDelete (deleteReq omar "c1") sampleDb) in
  fst (handleCourseDelete (deleteReq omar "c1") sampleDb)
  = send 200 (Message "Course deleted successfully")
  /\ S (length (courses db')) = length (courses sampleDb)
  /\ Course.findById "c1" (courses db') = None.
Proof.
  destruct (delete_removes_one (deleteReq omar "c1") sampleDb omar "c1" intro)
    as (H1 & H2 & _ & _ & H5); try reflexivity; [discriminate|].
  intros db'. split; [exact H1|]. split; [exact H2|].
  apply H5. simpl. distinct.
Defined.

Lemma create_then_delete_restores_witness :
  let req := createReq jane "Physics" "Waves" "30" coverImg in
  handleCourseDelete (deleteReq omar "oc1c2")
                     (snd (@handleCourseCreation sampleEnv req sampleDb))
  = (send 200 (Message "Course deleted successfully"), sampleDb).
Proof.
  apply (@create_then_delete_restores sampleEnv
           (createReq jane "Physics" "Waves" "30" coverImg) sampleDb
           (@createdCourse sampleEnv sampleDb jane "Physics" "Waves" "30"
                           "https://img.example/tmp/cover.png")
           "Course created successfully" (deleteReq omar "oc1c2") omar);
    try reflexivity.
  - simpl. intuition discriminate.
  - discriminate.
Defined.

Lemma update_with_current_values_is_identity_witness :
  handleCourseUpdate (updateReq jane "c1" (courseBody "Intro" "Basics" "10"))
                     sampleDb
  = (send 200 (MessageCourse "Course updated successfully" intro), sampleDb).
Proof.
  apply (update_with_current_values_is_identity
           (updateReq jane "c1" (courseBody "Intro" "Basics" "10"))
           sampleDb jane "c1" intro);
    try reflexivity; discriminate.
Defined.

Lemma create_without_path_is_refused_witness :
  let req := createReq jane "Physics" "Waves" "30"
                       (Some (Req.mkFile (Some ""))) in
  @handleCourseCreation sampleEnv req sampleDb
  = (send 400 (Error "Image is required"), sampleDb).
Proof.
  apply (@create_without_path_is_refused sampleEnv
           (createReq jane "Physics" "Waves" "30"
                      (Some (Req.mkFile (Some ""))))
           sampleDb jane "Physics" "Waves" "30" (Req.mkFile (Some "")));
    try reflexivity; discriminate.
Defined.

Lemma login_failures_witness :
  fst (@handleAdminLogin sampleEnv (loginReq "a@x.com" "secret9") sampleDb)
  = send 404 (Error "Invalid password").
Proof.
  destruct (@login_failures sampleEnv (loginReq "a@x.com" "secret9")
                            sampleDb "a@x.com" "secret9")
    as (_ & Hwrong & _); [reflexivity | discriminate |].
  apply (Hwrong janeDoc); reflexivity.
Defined.

Lemma register_keeps_emails_unique_witness :
  let req := registerReq "b@x.com" "secret2" "Omar" "Haddad" in
  let p := ("b@x.com", "Omar", "Haddad", "$2b$secret2") in
  NoDup (map Admin.email
             (admins (snd (@handleAdminRegister_create sampleEnv p
                                                       sampleDb))))
  /\ @handleAdminRegister sampleEnv req sampleDb
     = @handleAdminRegister_create sampleEnv p sampleDb.
Proof.
  apply (@register_keeps_emails_unique sampleEnv
           (registerReq "b@x.com" "secret2" "Omar" "Haddad")
           sampleDb sampleDb "b@x.com" "Omar" "Haddad" "$2b$secret2").
  - reflexivity.
  - simpl. distinct.
  - intros a Ha. now left.
Defined.

Lemma interleaved_registrations_duplicate_witness :
  let req2 := registerReq "b@x.com" "another9" "Olga" "Marin" in
  let p1 := ("b@x.com", "Omar", "Haddad", "$2b$secret2") in
  let p2 := ("b@x.com", "Olga", "Marin", "$2b$another9") in
  let db1 := snd (@handleAdminRegister_create sampleEnv p1 sampleDb) in
  let db2 := snd (@handleAdminRegister_create sampleEnv p2 db1) in
  length (admins db2) = 2 + length (admins sampleDb)
  /\ ~ NoDup (map Admin.email (admins db2))
  /\ @handleAdminRegister sampleEnv req2 db1
     = (Returned (send 400 (Error "Admin already exists")), db1).
Proof.
  destruct (@interleaved_registrations_duplicate sampleEnv
              (registerReq "b@x.com" "secret2" "Omar" "Haddad")
              (registerReq "b@x.com" "another9" "Olga" "Marin")
              sampleDb "b@x.com" "Omar" "Haddad" "$2b$secret2"
              "Olga" "Marin" "$2b$another9")
    as (_ & _ & Hlen & Hdup & Halone); [reflexivity | reflexivity |].
  intros req2 p1 p2 db1 db2. split; [exact Hlen|].
  split; [exact Hdup | exact Halone].
Defined.

Lemma register_then_login_witness :
  let reg := registerReq "b@x.com" "secret2" "Omar" "Haddad" in
  let db' := snd (@handleAdminRegister sampleEnv reg sampleDb) in
  let user := @createdAdmin sampleEnv sampleDb "b@x.com" "Omar" "Haddad"
                            "$2b$secret2" in
  @handleAdminLogin sampleEnv (loginReq "b@x.com" "secret2") db'
  = (mkResponse 200 [SetCookie "adminSessionId" "oa1.qazplm" true]
                (MessageAdmin "Admin logged in successfully" user),
     db').
Proof.
  apply (@register_then_login sampleEnv
           (registerReq "b@x.com" "secret2" "Omar" "Haddad")
           (loginReq "b@x.com" "secret2") sampleDb
           (@createdAdmin sampleEnv sampleDb "b@x.com" "Omar" "Haddad"
                          "$2b$secret2")
           "Admin created successfully" "secret2" "oa1.qazplm");
    reflexivity.
Defined.

Lemma register_hashing_failure_witness :
  let req := registerReq "b@x.com" "secret2" "Omar" "Haddad" in
  @handleAdminRegister throwingHashEnv req sampleDb
  = (Threw "data and salt arguments required", sampleDb).
Proof.
  destruct (@register_hashing_failure throwingHashEnv
              (registerReq "b@x.com" "secret2" "Omar" "Haddad") sampleDb
              "b@x.com" "secret2" "Omar" "Haddad")
    as (_ & Hthrow);
    [reflexivity | discriminate | discriminate | discriminate | reflexivity |].
  apply Hthrow. reflexivity.
Defined.

Lemma register_rejects_bad_shape_witness :
  exists err,
    @handleAdminRegister sampleEnv
                         (registerReq "b@x.com" "abc" "Omar" "Haddad")
                         sampleDb
    = (Returned (send 400 (ErrorZod err)), sampleDb).
Proof.
  apply (@register_rejects_bad_shape sampleEnv
           (registerReq "b@x.com" "abc" "Omar" "Haddad") sampleDb
           [("email", VString "b@x.com"); ("password", VString "abc");
            ("firstName", VString "Omar"); ("lastName", VString "Haddad")]).
  - reflexivity.
  - right. left. intros s H. injection H as <-. simpl. lia.
Defined.
